(** * Streamlit front end of the multi-agent travel planner

    A shallow embedding of [samples/multi-agent-travel-planner/streamlit_app.py]
    and the properties of its specification.

    The script is a single Streamlit page: it reads the widgets of the sidebar,
    validates the dates, builds the start state, runs the compiled workflow
    and renders every streamed step.  Everything the script does is a call
    into a library ([st.*], the monitoring set-up, the workflow), so the
    embedding is a function from an environment (what the libraries answer)
    to the sequence of calls the script makes, together with its outcome
    (normal return or a propagated exception). *)

From Corelib Require PrimFloat.
From Stdlib Require Import ZArith QArith String Ascii List DecimalString Lia.
From stdpp Require Import gmap strings list fin_maps.

Open Scope string_scope.
Open Scope list_scope.
Open Scope Z_scope.

(* ===================================================================== *)
(** * Python values used by the script *)
(* ===================================================================== *)

Module Py.

(** A [str] is a [string]; one [ascii] stands for one character.  The
    casing functions below know the ASCII letters; every other character
    is uncased.  Emoji of the literals are kept as the bytes of the source
    file. *)

Definition is_upper (c : ascii) : bool :=
  let n := nat_of_ascii c in ((65 <=? n) && (n <=? 90))%nat.

Definition is_lower (c : ascii) : bool :=
  let n := nat_of_ascii c in ((97 <=? n) && (n <=? 122))%nat.

Definition is_cased (c : ascii) : bool := is_upper c || is_lower c.

Definition to_upper (c : ascii) : ascii :=
  if is_lower c then ascii_of_nat (nat_of_ascii c - 32) else c.

Definition to_lower (c : ascii) : ascii :=
  if is_upper c then ascii_of_nat (nat_of_ascii c + 32) else c.

(** [s.replace(old, new)] for one-character [old] and [new]. *)
Fixpoint replace_char (old new : ascii) (s : string) : string :=
  match s with
  | EmptyString => EmptyString
  | String c s' =>
      String (if Ascii.eqb c old then new else c) (replace_char old new s')
  end.

(** [s.title()]: a character that follows a cased one is lowered, any
    other one is put in title case. *)
Fixpoint title_from (previous_is_cased : bool) (s : string) : string :=
  match s with
  | EmptyString => EmptyString
  | String c s' =>
      String (if previous_is_cased then to_lower c else to_upper c)
             (title_from (is_cased c) s')
  end.

Definition title (s : string) : string := title_from false s.

(** [str(n)] for an [int]. *)
Definition str_of_int (z : Z) : string := NilZero.string_of_int (Z.to_int z).

(** [s[:n]]. *)
Definition slice_to (n : nat) (s : string) : string := substring 0 n s.

(** Truth value of an [Optional[str]]: [None] and the empty string are
    false. *)
Definition truthy_str (o : option string) : bool :=
  match o with
  | Some (String _ _) => true
  | _ => false
  end.

(** [min(a, b)] returns [b] when [b < a] and [a] otherwise. *)
Definition min (a b : Q) : Q := if Qlt_le_dec b a then b else a.

(** [a / b] on two [int]s.  The quotient is kept as the exact rational;
    the [float] the interpreter shows is its nearest double, and rounding
    to nearest is monotone and fixes [0] and [1], so order and the bounds
    [0] and [1] read off the rational are those of the double. *)
Definition truediv (a b : Z) : Q := Qmake a 1 / Qmake b 1.

(** The [float] of a positive [int]; exact below 2^53. *)
Fixpoint double_of_pos (p : positive) : PrimFloat.float :=
  match p with
  | xH => PrimFloat.one
  | xO q => PrimFloat.mul PrimFloat.two (double_of_pos q)
  | xI q => PrimFloat.add (PrimFloat.mul PrimFloat.two (double_of_pos q)) PrimFloat.one
  end.

(** [float(n)] for an [int] of magnitude below 2^53. *)
Definition double_of_int (z : Z) : PrimFloat.float :=
  match z with
  | Z0 => PrimFloat.zero
  | Zpos p => double_of_pos p
  | Zneg p => PrimFloat.opp (double_of_pos p)
  end.

(** [a / b] as the interpreter computes it, for [int]s of magnitude below
    2^53: the correctly rounded quotient, which is the division of IEEE 754
    on their doubles. *)
Definition truediv_double (a b : Z) : PrimFloat.float :=
  PrimFloat.div (double_of_int a) (double_of_int b).

(** [min(a, b)] on two [float]s. *)
Definition min_double (a b : PrimFloat.float) : PrimFloat.float :=
  if PrimFloat.ltb b a then b else a.

(** The double nearest to a rational with small numerator and denominator. *)
Definition double_of_Q (q : Q) : PrimFloat.float :=
  PrimFloat.div (double_of_int (Qnum q)) (double_of_pos (Qden q)).

(** An instance of (a subclass of) [Exception]; [exc_str] is [str(e)].
    Signals outside [Exception] ([KeyboardInterrupt], [SystemExit]) end
    the interpreter's run of the script and are not part of the model. *)
Record Exception := mkException { exc_class : string; exc_str : string }.

(** The double quote character, for literals that contain one. *)
Definition dquote : string := String "034"%char "".

End Py.

(* ===================================================================== *)
(** * Calls, contexts and the effect monad *)
(* ===================================================================== *)

(** A message of the log.  [isinstance(m, BaseMessage)] holds for the first
    constructor; the node of a graph may also return anything else. *)
Inductive Message :=
| BaseMessage (type_ : string) (content : string)
| NotAMessage.

Definition HumanMessage (content : string) : Message := BaseMessage "human" content.

(** [PlannerState], with the keys [main] gives it. *)
Record PlannerState := mkPlannerState {
  messages : list Message;
  user_request : string;
  session_id : string;
  origin : string;
  destination : string;
  departure : string;
  return_date : string;
  travellers : Z;
  flight_summary : option string;
  hotel_summary : option string;
  activities_summary : option string;
  final_itinerary : option string;
  current_agent : string
}.

(** The value a streamed step carries for a node: a dict over the keys of
    [PlannerState].  The script reads five of them, each through [.get] (or
    after a [.get] that found it); [None] stands for a missing key as well
    as for the value [None]. *)
Record NodeState := mkNodeState {
  ns_messages : option (list Message);
  ns_flight_summary : option string;
  ns_hotel_summary : option string;
  ns_activities_summary : option string;
  ns_final_itinerary : option string
}.

(** One item of [app.stream(...)]: a dict from node name to node state, in
    insertion order. *)
Definition Step := list (string * NodeState).

(** The [config] dict of the run. *)
Record Config := mkConfig {
  configurable_thread_id : string;
  metadata_session_id : string;
  metadata_thread_id : string;
  recursion_limit : Z
}.

(** An entry of [DESTINATIONS]. *)
Record DestInfo := mkDestInfo { country : string; highlights : list string }.

(** The placeholders [st.empty()] of the page: the status line, and the row
    of the [i]-th agent. *)
Inductive PlaceholderId :=
| status_placeholder
| agent_placeholder (i : nat).

(** Where a call is made: the [with] blocks of the script. *)
Inductive Ctx :=
| Sidebar
| Column (i : nat)
| Container
| Placeholder (id : PlaceholderId)
| Expander (label : string) (expanded : bool).

(** The library calls of the script, with the arguments it passes. *)
Inductive Call :=
| set_page_config (page_title page_icon layout initial_sidebar_state : string)
| title (body : string)
| markdown (body : string)
| header (body : string)
| subheader (body : string)
| selectbox_call (label : string) (options : list string) (index : nat) (help : string)
| date_input_call (label : string) (value min_value max_value : Z)
| number_input_call (label : string) (min_value max_value value : Z)
| text_area_call (label value : string) (height : Z) (help : string)
| button_call (label type_ : string) (use_container_width : bool)
| error (body : string)
| info (body : string)
| warning (body : string)
| success (body : string)
| write (body : string)
| columns (n : Z)
| columns_weights (spec : list Z)
| empty (id : PlaceholderId)
| progress_new (value : Q)
| progress (value : Q)
| status_text (body : string)
| download_button (label data file_name mime : string)
| configure_azure_monitor_call (connection_string : option string)
| configure_otlp_tracing_call
| session_state_set_workflow_steps
| build_workflow_call
| compile_call
| stream_call (initial_state : PlannerState) (config : Config).

Inductive Event :=
| Do (c : Call)
| Within (ctx : Ctx) (e : Event).

Inductive outcome (A : Type) :=
| Returns (a : A)
| Raises (e : Py.Exception).
Arguments Returns {A} a.
Arguments Raises {A} e.

(** A computation: the calls it makes, then its outcome. *)
Definition M (A : Type) : Type := (list Event * outcome A)%type.

#[export] Instance M_ret : MRet M := fun A a => ([], Returns a).

#[export] Instance M_bind : MBind M := fun A B f m =>
  match m with
  | (t, Returns a) => let '(t', r) := f a in (t ++ t', r)
  | (t, Raises e) => (t, Raises e)
  end.

Definition emit (c : Call) : M unit := ([Do c], Returns tt).

Definition raise {A} (e : Py.Exception) : M A := ([], Raises e).

(** [with ctx: body]. *)
Definition within {A} (ctx : Ctx) (body : M A) : M A :=
  (map (Within ctx) (fst body), snd body).

(** [try: body  except Exception as e: handler e]. *)
Definition try_except {A} (body : M A) (handler : Py.Exception -> M A) : M A :=
  match body with
  | (t, Returns a) => (t, Returns a)
  | (t, Raises e) => let '(t', r) := handler e in (t ++ t', r)
  end.

(** A library call that returns nothing and may raise. *)
Definition call_may_raise (c : Call) (r : option Py.Exception) : M unit :=
  match r with
  | None => ([Do c], Returns tt)
  | Some e => ([Do c], Raises e)
  end.

Definition trace {A} (m : M A) : list Event := fst m.
Definition result {A} (m : M A) : outcome A := snd m.

(** What the libraries answer during one run of the script. *)
Record Env := mkEnv {
  (** [datetime.now().date()], as a day number *)
  now_date : Z;
  (** [d.strftime('%Y-%m-%d')] and [str(d)] on a day number *)
  strftime_ymd : Z -> string;
  date_str : Z -> string;
  (** the imported table [DESTINATIONS], in insertion order *)
  DESTINATIONS : list (string * DestInfo);
  (** the widgets: the value a widget hands back, given the arguments of the
      call; a widget that refuses its arguments ends the run where it stands,
      and such a run is not one of the model *)
  selectbox : string -> list string -> nat -> string;
  date_input : string -> Z -> Z -> Z -> Z;
  number_input : string -> Z -> Z -> Z -> Z;
  text_area : string -> string -> string;
  button : string -> bool;
  (** [os.getenv] *)
  getenv : string -> option string;
  (** monitoring set-up: [None] when the call returns *)
  configure_azure_monitor : option string -> option Py.Exception;
  configure_otlp_tracing : option Py.Exception;
  (** ['workflow_steps' in st.session_state] *)
  session_has_workflow_steps : bool;
  (** [str(uuid4())] *)
  uuid4 : string;
  (** [build_workflow()] and [workflow.compile()]: [None] when they return *)
  build_workflow : option Py.Exception;
  compile : option Py.Exception;
  (** [app.stream(initial_state, config=config)]: the steps it yields and,
      after them, [None] when the stream ends or the exception it raises *)
  stream : PlannerState -> Config -> list Step * option Py.Exception
}.

(* ===================================================================== *)
(** * The script *)
(* ===================================================================== *)

Definition nl : string := String "010"%char "".

(** [setup_monitoring()] *)
Definition setup_monitoring (env : Env) : M unit :=
  try_except
    (call_may_raise
       (configure_azure_monitor_call (getenv env "APPLICATION_INSIGHTS_CONNECTION_STRING"))
       (configure_azure_monitor env (getenv env "APPLICATION_INSIGHTS_CONNECTION_STRING"));;
     call_may_raise configure_otlp_tracing_call (configure_otlp_tracing env))
    (fun e => emit (warning ("Monitoring setup failed: " +:+ Py.exc_str e))).

(** [get_city_suggestions()] *)
Definition get_city_suggestions (env : Env) : list string * list string :=
  let origins :=
    ["Seattle"; "New York"; "San Francisco"; "London"; "Los Angeles"; "Chicago"; "Boston"] in
  let destinations :=
    map fst (DESTINATIONS env) ++ ["Barcelona"; "Amsterdam"; "Vienna"; "Prague"] in
  (origins, map Py.title destinations).

(** [format_agent_name(agent_name)] *)
Definition format_agent_name (agent_name : string) : string :=
  Py.title (Py.replace_char "_" " " agent_name).

(** The values [main] reads in the sidebar. *)
Record Inputs := mkInputs {
  in_origin : string;
  in_destination : string;
  in_departure_date : Z;
  in_return_date : Z;
  in_travelers : Z;
  in_custom_request : string;
  in_plan_button : bool
}.

(** [main], lines 58-118: the body of [with st.sidebar], in a run in which
    every widget hands back a value.  [st.date_input] refuses a start value
    outside its bounds: the return date input gets the departure + 5 days
    and the bound today + 365 days, so the sidebar is passed when the
    departure is at most 360 days ahead. *)
Definition sidebar (env : Env) : M Inputs :=
  emit (header "Trip Details");;
  let '(origins, destinations) := get_city_suggestions env in
  emit (selectbox_call "🛫 Origin City" origins 0 "Where will you be traveling from?");;
  let origin := selectbox env "🛫 Origin City" origins 0 in
  emit (selectbox_call "🏖️ Destination City" destinations 0 "Where would you like to visit?");;
  let destination := selectbox env "🏖️ Destination City" destinations 0 in
  emit (subheader "📅 Travel Dates");;
  let min_date := now_date env in
  let max_date := now_date env + 365 in
  emit (date_input_call "Departure Date" (now_date env + 21) min_date max_date);;
  let departure_date := date_input env "Departure Date" (now_date env + 21) min_date max_date in
  emit (date_input_call "Return Date" (departure_date + 5) departure_date max_date);;
  let return_date := date_input env "Return Date" (departure_date + 5) departure_date max_date in
  emit (number_input_call "👥 Number of Travelers" 1 10 2);;
  let travelers := number_input env "👥 Number of Travelers" 1 10 2 in
  emit (subheader "✨ Special Requests");;
  emit (text_area_call "Tell us more about your trip preferences..."
          "We'd love a boutique hotel, business-class flights and memorable activities."
          100
          "Add any special requirements, preferences, or activities you're interested in");;
  let custom_request :=
    text_area env "Tell us more about your trip preferences..."
      "We'd love a boutique hotel, business-class flights and memorable activities." in
  emit (button_call "🚀 Plan My Trip" "primary" true);;
  let plan_button := button env "🚀 Plan My Trip" in
  mret (mkInputs origin destination departure_date return_date travelers
                 custom_request plan_button).

(** Line 128: the request sentence. *)
Definition make_user_request (env : Env) (i : Inputs) : string :=
  "We're planning a trip to " +:+ in_destination i +:+ " from " +:+ in_origin i
  +:+ " departing " +:+ strftime_ymd env (in_departure_date i)
  +:+ " and returning " +:+ strftime_ymd env (in_return_date i)
  +:+ " for " +:+ Py.str_of_int (in_travelers i) +:+ " travelers. "
  +:+ in_custom_request i.

(** Lines 131-139: the trip summary. *)
Definition trip_summary (i : Inputs) : M unit :=
  emit (columns 3);;
  within (Column 0)
    (emit (info ("**Route:** " +:+ in_origin i +:+ " → " +:+ in_destination i)));;
  within (Column 1)
    (emit (info ("**Duration:** "
                 +:+ Py.str_of_int (in_return_date i - in_departure_date i) +:+ " days")));;
  within (Column 2)
    (emit (info ("**Travelers:** " +:+ Py.str_of_int (in_travelers i))));;
  emit (markdown "---").

(** Lines 149-164: [initial_state]. *)
Definition make_initial_state (env : Env) (i : Inputs) (session_id : string)
  : PlannerState :=
  let user_request := make_user_request env i in
  {| messages := [HumanMessage user_request];
     user_request := user_request;
     session_id := session_id;
     origin := in_origin i;
     destination := in_destination i;
     departure := strftime_ymd env (in_departure_date i);
     return_date := strftime_ymd env (in_return_date i);
     travellers := in_travelers i;
     flight_summary := None;
     hotel_summary := None;
     activities_summary := None;
     final_itinerary := None;
     current_agent := "start" |}.

(** Lines 170-177: [config]. *)
Definition make_config (session_id : string) : Config :=
  {| configurable_thread_id := session_id;
     metadata_session_id := session_id;
     metadata_thread_id := session_id;
     recursion_limit := 10 |}.

(** Line 187: [agent_steps]. *)
Definition agent_steps : list string :=
  ["coordinator"; "flight_specialist"; "hotel_specialist"; "activity_specialist";
   "plan_synthesizer"].

(** Lines 190-196: one row per agent; [agent_containers] maps the agent to
    the placeholder [st.empty()] made for it, named by its position. *)
Fixpoint make_containers (agents : list string) (i : nat)
    (agent_containers : gmap string nat) : M (gmap string nat) :=
  match agents with
  | [] => mret agent_containers
  | agent :: rest =>
      within Container
        (emit (columns_weights [1; 4]);;
         within (Column 0) (emit (markdown ("**" +:+ format_agent_name agent +:+ "**")));;
         within (Column 1) (emit (empty (agent_placeholder i))));;
      make_containers rest (S i) (<[agent := i]> agent_containers)
  end.

(** Line 222: the preview of a message. *)
Definition preview (content : string) : string :=
  if (300 <? String.length content)%nat
  then Py.slice_to 300 content +:+ "..."
  else content.

(** [node_state.get("messages")] as a condition. *)
Definition has_messages (node_state : NodeState) : bool :=
  match ns_messages node_state with
  | Some (_ :: _) => true
  | _ => false
  end.

(** Lines 212-223: show the newest message of a step in the row of its
    agent. *)
Definition show_latest_message (agent_containers : gmap string nat)
    (node_name : string) (node_state : NodeState) : M unit :=
  if has_messages node_state then
    match List.last (default [] (ns_messages node_state)) NotAMessage with
    | BaseMessage _ content =>
        match agent_containers !! node_name with
        | Some i =>
            within (Placeholder (agent_placeholder i)) (emit (success ("✅ " +:+ preview content)))
        | None => mret tt
        end
    | NotAMessage => mret tt
    end
  else mret tt.

(** Line 208: the progress value after [step_count] steps. *)
Definition progress_value (step_count total_steps : Z) : Q :=
  Py.min (Py.truediv step_count total_steps) 1.

(** Line 208 on doubles: the value the interpreter gives to the bar. *)
Definition progress_double (step_count total_steps : Z) : PrimFloat.float :=
  Py.min_double (Py.truediv_double step_count total_steps) PrimFloat.one.

(** The local variables the loop assigns; [node] is unbound before the
    first step. *)
Record LoopVars := mkLoopVars {
  step_count : Z;
  node : option (string * NodeState)
}.

Definition StopIteration : Py.Exception := Py.mkException "StopIteration" "".

(** Lines 204-223: the body of [for step in app.stream(...)] on one step. *)
Definition loop_body (agent_containers : gmap string nat) (total_steps : Z)
    (step : Step) (vars : LoopVars) : M LoopVars :=
  match step with
  | [] => raise StopIteration
  | (node_name, node_state) :: _ =>
      let step_count := step_count vars + 1 in
      emit (progress (progress_value step_count total_steps));;
      emit (status_text ("🔄 " +:+ format_agent_name node_name +:+ " is working..."));;
      show_latest_message agent_containers node_name node_state;;
      mret (mkLoopVars step_count (Some (node_name, node_state)))
  end.

(** Line 203: the [for] loop, over the steps the stream yields. *)
Fixpoint stream_loop (agent_containers : gmap string nat) (total_steps : Z)
    (steps : list Step) (vars : LoopVars) : M LoopVars :=
  match steps with
  | [] => mret vars
  | step :: rest =>
      vars' ← loop_body agent_containers total_steps step vars;
      stream_loop agent_containers total_steps rest vars'
  end.

(** The end of the stream: it stops, or raises. *)
Definition stream_end (r : option Py.Exception) : M unit :=
  match r with
  | None => mret tt
  | Some e => raise e
  end.

Definition UnboundLocalError_node_state : Py.Exception :=
  Py.mkException "UnboundLocalError"
    "cannot access local variable 'node_state' where it is not associated with a value".

(** Lines 230-268: the itinerary and the summaries of the last state. *)
Definition show_itinerary (env : Env) (i : Inputs) (final_state : NodeState) : M unit :=
  if Py.truthy_str (ns_final_itinerary final_state) then
    let final_itinerary := default "" (ns_final_itinerary final_state) in
    emit (markdown "---");;
    emit (subheader "🎉 Your Complete Travel Itinerary");;
    within (Expander "📋 View Full Itinerary" true) (emit (markdown final_itinerary));;
    emit (download_button "📥 Download Itinerary" final_itinerary
            ("travel_itinerary_" +:+ in_destination i +:+ "_"
             +:+ date_str env (in_departure_date i) +:+ ".txt")
            "text/plain");;
    emit (markdown "---");;
    emit (subheader "📊 Agent Summaries");;
    emit (columns 3);;
    within (Column 0)
      (if Py.truthy_str (ns_flight_summary final_state) then
         emit (info "✈️ **Flight Options**");;
         emit (write (default "" (ns_flight_summary final_state)))
       else mret tt);;
    within (Column 1)
      (if Py.truthy_str (ns_hotel_summary final_state) then
         emit (info "🏨 **Hotel Recommendation**");;
         emit (write (default "" (ns_hotel_summary final_state)))
       else mret tt);;
    within (Column 2)
      (if Py.truthy_str (ns_activities_summary final_state) then
         emit (info "🎯 **Activities & Experiences**");;
         emit (write (default "" (ns_activities_summary final_state)))
       else mret tt)
  else mret tt.

(** Lines 200-268: the body of the [try]. *)
Definition run_workflow (env : Env) (i : Inputs) (agent_containers : gmap string nat)
    (initial_state : PlannerState) (config : Config) : M unit :=
  let total_steps := Z.of_nat (length agent_steps) in
  emit (stream_call initial_state config);;
  vars ← stream_loop agent_containers total_steps
           (fst (stream env initial_state config)) (mkLoopVars 0 None);
  stream_end (snd (stream env initial_state config));;
  emit (progress 1);;
  emit (status_text "✨ Trip planning complete!");;
  final_state ← match node vars with
                | Some (_, node_state) => mret node_state
                | None => raise UnboundLocalError_node_state
                end;
  show_itinerary env i final_state.

(** Lines 270-272: the handler of the [try]. *)
Definition report_error (e : Py.Exception) : M unit :=
  emit (error ("An error occurred while planning your trip: " +:+ Py.exc_str e));;
  emit (info "Please check your environment configuration and try again.").

(** Lines 179-272: the progress bar, the status line, the agent rows and the
    guarded run. *)
Definition stream_with_updates (env : Env) (i : Inputs)
    (initial_state : PlannerState) (config : Config) : M unit :=
  emit (progress_new 0);;
  emit (empty status_placeholder);;
  emit (subheader "🤖 AI Agents Working on Your Trip");;
  agent_containers ← make_containers agent_steps 0 ∅;
  try_except (run_workflow env i agent_containers initial_state config) report_error.

(** Lines 144-272: the session, the start state, the workflow and its run. *)
Definition start_workflow (env : Env) (i : Inputs) : M unit :=
  (if session_has_workflow_steps env then mret tt
   else emit session_state_set_workflow_steps);;
  let session_id := uuid4 env in
  let initial_state := make_initial_state env i session_id in
  call_may_raise build_workflow_call (build_workflow env);;
  call_may_raise compile_call (compile env);;
  let config := make_config session_id in
  stream_with_updates env i initial_state config.

(** Lines 127-272: a request with valid dates. *)
Definition plan_trip (env : Env) (i : Inputs) : M unit :=
  trip_summary i;;
  setup_monitoring env;;
  start_workflow env i.

Definition IndexError : Py.Exception :=
  Py.mkException "IndexError" "list index out of range".

(** [l[k]] on a list. *)
Definition getitem (l : list string) (k : nat) : M string :=
  match l !! k with
  | Some x => mret x
  | None => raise IndexError
  end.

Definition welcome_text : string :=
"
        ### How it works:
        
        1. **📍 Choose your destinations** - Select where you're traveling from and to
        2. **📅 Pick your dates** - Choose your departure and return dates
        3. **👥 Add traveler details** - Specify how many people are traveling
        4. **✨ Add preferences** - Tell us about your travel style and interests
        5. **🚀 Let AI plan** - Watch as specialized AI agents create your perfect itinerary
        
        Our AI travel specialists will:
        - 🛫 Find the best flight options
        - 🏨 Recommend perfect accommodations
        - 🎯 Curate amazing activities and experiences
        - 📝 Create a polished, complete itinerary
        
        **Ready to start planning?** Fill out the form in the sidebar and click " +:+ Py.dquote +:+ "Plan My Trip" +:+ Py.dquote +:+ "!
        ".

Definition indent16 : string := "                ".

(** Lines 299-306: one column per destination. *)
Fixpoint destination_columns (items : list (string * DestInfo)) (i : nat) : M unit :=
  match items with
  | [] => mret tt
  | (dest, info_) :: rest =>
      within (Column i)
        (h0 ← getitem (highlights info_) 0;
         h1 ← getitem (highlights info_) 1;
         h2 ← getitem (highlights info_) 2;
         emit (markdown
                 (nl +:+ indent16 +:+ "**" +:+ Py.title dest +:+ ", " +:+ country info_
                  +:+ "**" +:+ nl +:+ indent16 +:+ "- " +:+ h0
                  +:+ nl +:+ indent16 +:+ "- " +:+ h1
                  +:+ nl +:+ indent16 +:+ "- " +:+ h2
                  +:+ nl +:+ indent16)));;
      destination_columns rest (S i)
  end.

(** Lines 274-306: the page before a request. *)
Definition welcome (env : Env) : M unit :=
  emit (markdown welcome_text);;
  emit (markdown "---");;
  emit (subheader "✨ Popular Destinations");;
  emit (columns 3);;
  destination_columns (take 3 (DESTINATIONS env)) 0.

(** [main()] *)
Definition main (env : Env) : M unit :=
  emit (set_page_config "🧭 AI Travel Planner" "✈️" "wide" "expanded");;
  emit (title "🧭 AI Multi-Agent Travel Planner");;
  emit (markdown "Plan your perfect trip with AI-powered travel specialists!");;
  i ← within Sidebar (sidebar env);
  if in_plan_button i then
    if in_return_date i <=? in_departure_date i then
      emit (error "Return date must be after departure date!")
    else
      plan_trip env i
  else
    welcome env.

(** A sample environment: the user picks the two dates and enters a number
    of travelers, which the widget keeps within its bounds; [steps] is what
    the stream yields. *)
Definition sample_env (button_pressed : bool) (departure_date return_date travelers : Z)
    (steps : list Step) (stream_error : option Py.Exception) : Env :=
  {| now_date := 739000;
     strftime_ymd := fun d => "day-" +:+ Py.str_of_int d;
     date_str := fun d => "day-" +:+ Py.str_of_int d;
     DESTINATIONS :=
       [("tokyo", mkDestInfo "Japan" ["Shibuya"; "Senso-ji"; "Tsukiji"])];
     selectbox := fun _ options index => nth index options "";
     date_input := fun label _ _ _ =>
       if String.eqb label "Departure Date" then departure_date else return_date;
     number_input := fun _ min_value max_value _ => Z.max min_value (Z.min max_value travelers);
     text_area := fun _ value => value;
     button := fun _ => button_pressed;
     getenv := fun _ => None;
     configure_azure_monitor := fun _ => None;
     configure_otlp_tracing := None;
     session_has_workflow_steps := false;
     uuid4 := "00000000-0000-4000-8000-000000000000";
     build_workflow := None;
     compile := None;
     stream := fun _ _ => (steps, stream_error) |}.

(* ===================================================================== *)
(** * The pipeline orchestrator behind [app.stream] *)
(* ===================================================================== *)

(** The workflow that [build_workflow()] returns is defined in module
    [nested_agent_travel_planner], which is not among the sources at hand.
    This module follows sections 3, 4.1, 4.2 and 4.3 of the specification.
    The Trip State is the [PlannerState] the script creates. *)
Module Orchestrator.

(** Modelled from the spec: the summary slots of the Trip State, "flight,
    hotel, activities, final-itinerary"; the orchestrator itself
    is missing from the sources. *)
Inductive Slot := flight_slot | hotel_slot | activities_slot | itinerary_slot.

(** Modelled from the spec: the closed set of agent variants of section
    4.1; the agents are missing from the sources. *)
Inductive Stage :=
| coordinator
| flight_specialist
| hotel_specialist
| activity_specialist
| plan_synthesizer.

(** Modelled from the spec: "flight-specialist (owns flight-summary),
    hotel-specialist (owns hotel-summary), activity-specialist (owns
    activities-summary), plan-synthesizer (owns final-itinerary)"; the
    coordinator touches "the message log only". *)
Definition owned_slot (s : Stage) : option Slot :=
  match s with
  | coordinator => None
  | flight_specialist => Some flight_slot
  | hotel_specialist => Some hotel_slot
  | activity_specialist => Some activities_slot
  | plan_synthesizer => Some itinerary_slot
  end.

(** Modelled from the spec: the stage name of a StepEvent, spelled as the
    node names the script looks up in [agent_containers]. *)
Definition stage_name (s : Stage) : string :=
  match s with
  | coordinator => "coordinator"
  | flight_specialist => "flight_specialist"
  | hotel_specialist => "hotel_specialist"
  | activity_specialist => "activity_specialist"
  | plan_synthesizer => "plan_synthesizer"
  end.

(** Modelled from the spec: section 4.3, the "fixed ordered list of Agent
    instances". *)
Definition stage_list : list Stage :=
  [coordinator; flight_specialist; hotel_specialist; activity_specialist;
   plan_synthesizer].

(** Modelled from the spec: reading a summary slot of the Trip State. *)
Definition get_slot (sl : Slot) (st : PlannerState) : option string :=
  match sl with
  | flight_slot => flight_summary st
  | hotel_slot => hotel_summary st
  | activities_slot => activities_summary st
  | itinerary_slot => final_itinerary st
  end.

(** Modelled from the spec: setting a summary slot of the Trip State. *)
Definition set_slot (sl : Slot) (v : string) (st : PlannerState) : PlannerState :=
  match sl with
  | flight_slot =>
      mkPlannerState (messages st) (user_request st) (session_id st) (origin st)
        (destination st) (departure st) (return_date st) (travellers st)
        (Some v) (hotel_summary st) (activities_summary st) (final_itinerary st)
        (current_agent st)
  | hotel_slot =>
      mkPlannerState (messages st) (user_request st) (session_id st) (origin st)
        (destination st) (departure st) (return_date st) (travellers st)
        (flight_summary st) (Some v) (activities_summary st) (final_itinerary st)
        (current_agent st)
  | activities_slot =>
      mkPlannerState (messages st) (user_request st) (session_id st) (origin st)
        (destination st) (departure st) (return_date st) (travellers st)
        (flight_summary st) (hotel_summary st) (Some v) (final_itinerary st)
        (current_agent st)
  | itinerary_slot =>
      mkPlannerState (messages st) (user_request st) (session_id st) (origin st)
        (destination st) (departure st) (return_date st) (travellers st)
        (flight_summary st) (hotel_summary st) (activities_summary st) (Some v)
        (current_agent st)
  end.

(** Modelled from the spec: appending entries to the message log ("always
    appended, never replace earlier entries"). *)
Definition append_log (entries : list Message) (st : PlannerState) : PlannerState :=
  mkPlannerState (messages st ++ entries) (user_request st) (session_id st) (origin st)
    (destination st) (departure st) (return_date st) (travellers st)
    (flight_summary st) (hotel_summary st) (activities_summary st) (final_itinerary st)
    (current_agent st).

(** Modelled from the spec: "set current-stage marker to that stage's name
    before invoking it". *)
Definition set_marker (name : string) (st : PlannerState) : PlannerState :=
  mkPlannerState (messages st) (user_request st) (session_id st) (origin st)
    (destination st) (departure st) (return_date st) (travellers st)
    (flight_summary st) (hotel_summary st) (activities_summary st) (final_itinerary st)
    name.

(** Modelled from the spec: what a stage may assign, "at most one
    assignment to the agent's owned summary slot"; a stage that owns no
    slot has nothing to assign. *)
Definition Assignment (o : option Slot) : Type :=
  match o with
  | Some _ => option string
  | None => unit
  end.

(** Modelled from the spec: the StateUpdate of section 4.1, "zero or more
    new message-log entries ... and at most one assignment to the agent's
    owned summary slot". *)
Record StateUpdate (s : Stage) := mkStateUpdate {
  new_entries : list Message;
  assignment : Assignment (owned_slot s)
}.
Arguments new_entries {s} _.
Arguments assignment {s} _.

(** Modelled from the spec: the result of [execute]: a StateUpdate, or an
    AgentFailure "carrying a human-readable cause". *)
Inductive AgentResult (s : Stage) :=
| Completed (u : StateUpdate s)
| AgentFailure (cause : string).
Arguments Completed {s} u.
Arguments AgentFailure {s} cause.

(** Modelled from the spec: the agents, "an opaque capability the
    orchestrator invokes": [execute(state) -> StateUpdate]. *)
Definition Agents : Type := forall s : Stage, PlannerState -> AgentResult s.

(** Modelled from the spec: the merge of a StateUpdate, "append messages,
    set slot if not already set"; setting a slot that is set is an
    OrchestratorFault. *)
Definition assign (o : option Slot) (st : PlannerState)
  : Assignment o -> string + PlannerState :=
  match o return Assignment o -> string + PlannerState with
  | Some sl => fun a =>
      match a with
      | None => inr st
      | Some v =>
          match get_slot sl st with
          | Some _ => inl "attempt to overwrite an already-set slot"
          | None => inr (set_slot sl v st)
          end
      end
  | None => fun _ => inr st
  end.

(** Modelled from the spec: the merge step of section 4.2 for one stage. *)
Definition merge (s : Stage) (st : PlannerState) (u : StateUpdate s)
  : string + PlannerState :=
  assign (owned_slot s) (append_log (new_entries u) st) (assignment u).

(** Modelled from the spec: on an AgentFailure the orchestrator "records
    the failure as a message-log entry ... and proceeds to the next
    stage". *)
Definition record_failure (s : Stage) (cause : string) (st : PlannerState)
  : PlannerState :=
  append_log [BaseMessage "failure" (stage_name s +:+ ": " +:+ cause)] st.

(** Modelled from the spec: a StepEvent "carries: stage name, the updated
    Trip State snapshot at that point, and a monotonically increasing step
    counter starting at 1". *)
Record StepEvent := mkStepEvent {
  ev_stage : string;
  ev_state : PlannerState;
  ev_counter : nat
}.

(** Modelled from the spec: how a run ends: completed, cut by the step
    ceiling, or aborted by an OrchestratorFault. *)
Inductive RunOutcome :=
| completed
| recursion_limit_exceeded
| failed (fault : string).

(** Modelled from the spec: the algorithm of section 4.2.  [counter] is
    the number of StepEvents emitted so far: when it has reached the
    ceiling and a stage is left, the run ends early.  A stage whose agent
    fails is completed with the failure recorded, and its StepEvent shows
    the record to the consumer. *)
Fixpoint run_from (execute : Agents) (state : PlannerState) (stages : list Stage)
    (stepCeiling counter : nat) : list StepEvent * RunOutcome :=
  match stages with
  | [] => ([], completed)
  | s :: rest =>
      if (stepCeiling <=? counter)%nat then ([], recursion_limit_exceeded)
      else
        let entered := set_marker (stage_name s) state in
        let updated :=
          match execute s entered with
          | Completed u => merge s entered u
          | AgentFailure cause => inr (record_failure s cause entered)
          end in
        match updated with
        | inl fault => ([], failed fault)
        | inr state' =>
            let '(events, end_) := run_from execute state' rest stepCeiling (S counter) in
            (mkStepEvent (stage_name s) state' (S counter) :: events, end_)
        end
  end.

(** Modelled from the spec: [run(initialState, stageList, stepCeiling)]. *)
Definition run (execute : Agents) (initialState : PlannerState)
    (stageList : list Stage) (stepCeiling : nat) : list StepEvent * RunOutcome :=
  run_from execute initialState stageList stepCeiling 0.

(** Modelled from the spec: the snapshot of a StepEvent as the node state
    the consumer reads. *)
Definition node_state_of (st : PlannerState) : NodeState :=
  mkNodeState (Some (messages st)) (flight_summary st) (hotel_summary st)
    (activities_summary st) (final_itinerary st).

(** Modelled from the spec: a StepEvent as one item of the stream, "the
    observed streaming yield of per-stage dictionaries". *)
Definition step_of_event (ev : StepEvent) : Step :=
  [(ev_stage ev, node_state_of (ev_state ev))].

(** Modelled from the spec: the stream the caller consumes.  A run cut by
    the ceiling is "absorbed into the ... event stream"; an
    OrchestratorFault is "surfaced ... to the caller". *)
Definition stream_of (execute : Agents) (initial_state : PlannerState)
    (config : Config) : list Step * option Py.Exception :=
  let '(events, end_) :=
    run execute initial_state stage_list (Z.to_nat (recursion_limit config)) in
  (map step_of_event events,
   match end_ with
   | failed fault => Some (Py.mkException "OrchestratorFault" fault)
   | _ => None
   end).

End Orchestrator.

(* ===================================================================== *)
(** * Reading a trace *)
(* ===================================================================== *)

(** The call of an event, whatever block it is made in. *)
Fixpoint call_of (e : Event) : Call :=
  match e with
  | Do c => c
  | Within _ e' => call_of e'
  end.

(** The calls into the workflow: building, compiling and running it. *)
Definition is_core_call (c : Call) : bool :=
  match c with
  | build_workflow_call | compile_call | stream_call _ _ => true
  | _ => false
  end.

Definition core_calls (t : list Event) : list Call :=
  List.filter is_core_call (map call_of t).

(** What the script shows for a step of the stream. *)
Definition is_step_report (c : Call) : bool :=
  match c with
  | progress _ | status_text _ | success _ => true
  | _ => false
  end.

Definition step_reports (t : list Event) : list Call :=
  List.filter is_step_report (map call_of t).

(** The arguments of the calls of [app.stream]. *)
Definition stream_args (c : Call) : option (PlannerState * Config) :=
  match c with
  | stream_call initial_state config => Some (initial_state, config)
  | _ => None
  end.

Definition stream_calls (t : list Event) : list (PlannerState * Config) :=
  omap (fun e => stream_args (call_of e)) t.

(** The values given to the progress bar, in order. *)
Definition progress_arg (c : Call) : option Q :=
  match c with
  | progress_new v | progress v => Some v
  | _ => None
  end.

Definition progress_values (t : list Event) : list Q :=
  omap (fun e => progress_arg (call_of e)) t.

(** The labels of the agent rows. *)
Definition row_label (e : Event) : option string :=
  match e with
  | Within Container (Within (Column 0) (Do (markdown body))) => Some body
  | _ => None
  end.

Definition row_labels (t : list Event) : list string := omap row_label t.

(** The monitoring calls and the warning of [setup_monitoring]. *)
Definition is_monitoring_call (c : Call) : bool :=
  match c with
  | configure_azure_monitor_call _ | configure_otlp_tracing_call | warning _ => true
  | _ => false
  end.

Definition without_monitoring (t : list Event) : list Event :=
  List.filter (fun e => negb (is_monitoring_call (call_of e))) t.

(** A list of rationals that never goes down. *)
Fixpoint non_decreasing (l : list Q) : Prop :=
  match l with
  | [] => True
  | x :: rest =>
      match rest with
      | [] => True
      | y :: _ => (x <= y)%Q
      end /\ non_decreasing rest
  end.

(** The same environment with another monitoring set-up. *)
Definition with_monitoring (env : Env)
    (azure : option string -> option Py.Exception) (otlp : option Py.Exception) : Env :=
  mkEnv (now_date env) (strftime_ymd env) (date_str env) (DESTINATIONS env)
    (selectbox env) (date_input env) (number_input env) (text_area env) (button env)
    (getenv env) azure otlp (session_has_workflow_steps env) (uuid4 env)
    (build_workflow env) (compile env) (stream env).

(** The same environment with another outcome of [build_workflow()] and
    [workflow.compile()]. *)
Definition with_workflow (env : Env) (build compile_ : option Py.Exception) : Env :=
  mkEnv (now_date env) (strftime_ymd env) (date_str env) (DESTINATIONS env)
    (selectbox env) (date_input env) (number_input env) (text_area env) (button env)
    (getenv env) (configure_azure_monitor env) (configure_otlp_tracing env)
    (session_has_workflow_steps env) (uuid4 env)
    build compile_ (stream env).

(** The same environment with another stream. *)
Definition with_stream (env : Env)
    (stream_ : PlannerState -> Config -> list Step * option Py.Exception) : Env :=
  mkEnv (now_date env) (strftime_ymd env) (date_str env) (DESTINATIONS env)
    (selectbox env) (date_input env) (number_input env) (text_area env) (button env)
    (getenv env) (configure_azure_monitor env) (configure_otlp_tracing env)
    (session_has_workflow_steps env) (uuid4 env)
    (build_workflow env) (compile env) stream_.

(** The error messages shown on the page. *)
Definition errors_shown (t : list Event) : list string :=
  omap (fun e => match call_of e with
                 | error body => Some body
                 | _ => None
                 end) t.

(** The same environment with the workflow of the orchestrator. *)
Definition with_orchestrator (env : Env) (execute : Orchestrator.Agents) : Env :=
  mkEnv (now_date env) (strftime_ymd env) (date_str env) (DESTINATIONS env)
    (selectbox env) (date_input env) (number_input env) (text_area env) (button env)
    (getenv env) (configure_azure_monitor env) (configure_otlp_tracing env)
    (session_has_workflow_steps env) (uuid4 env)
    None None (Orchestrator.stream_of execute).

(** A string of [n] copies of a character. *)
Fixpoint repeat_char (c : ascii) (n : nat) : string :=
  match n with
  | O => EmptyString
  | S n' => String c (repeat_char c n')
  end.

(** The preview as the specification words it: the whole content up to 300
    characters, and otherwise only its first 300 characters. *)
Definition preview_as_specified (content : string) : string :=
  if (String.length content <=? 300)%nat then content else Py.slice_to 300 content.

(** Agents that always complete with one log entry and their summary. *)
Definition sample_agents : Orchestrator.Agents := fun s _ =>
  Orchestrator.Completed
    (Orchestrator.mkStateUpdate s
       [BaseMessage "ai" (Orchestrator.stage_name s +:+ " done")]
       (match Orchestrator.owned_slot s as o return Orchestrator.Assignment o with
        | Some _ => Some "summary"
        | None => tt
        end)).

(** Agents of which the hotel specialist fails. *)
Definition failing_hotel_agents : Orchestrator.Agents := fun s st =>
  match s with
  | Orchestrator.hotel_specialist => Orchestrator.AgentFailure "no rooms"
  | _ => sample_agents s st
  end.

(** The map [make_containers] builds. *)
Fixpoint containers_of (agents : list string) (i : nat)
    (agent_containers : gmap string nat) : gmap string nat :=
  match agents with
  | [] => agent_containers
  | agent :: rest => containers_of rest (S i) (<[agent := i]> agent_containers)
  end.

(** The rows [make_containers] shows. *)
Fixpoint rows_of (agents : list string) (i : nat) : list Event :=
  match agents with
  | [] => []
  | agent :: rest =>
      [Within Container (Do (columns_weights [1; 4]));
       Within Container
         (Within (Column 0) (Do (markdown ("**" +:+ format_agent_name agent +:+ "**"))));
       Within Container (Within (Column 1) (Do (empty (agent_placeholder i))))]
      ++ rows_of rest (S i)
  end.

(** The steps of a list paired with the count the loop gives them, starting
    after [count]. *)
Fixpoint counted (count : Z) (steps : list Step) : list (Z * Step) :=
  match steps with
  | [] => []
  | step :: rest => (count + 1, step) :: counted (count + 1) rest
  end.

(** The steps the loop gets through: those before the first empty dict, on
    which [next(iter(step.items()))] raises. *)
Fixpoint handled (steps : list Step) : list Step :=
  match steps with
  | [] => []
  | [] :: _ => []
  | step :: rest => step :: handled rest
  end.

(** A step that names a node: a dict with an item. *)
Definition names_a_node (step : Step) : bool :=
  match step with
  | [] => false
  | _ :: _ => true
  end.

(** The variables of the loop after the steps of a list. *)
Fixpoint vars_after (steps : list Step) (vars : LoopVars) : LoopVars :=
  match steps with
  | [] => vars
  | step :: rest => vars_after rest (mkLoopVars (step_count vars + 1) (head step))
  end.

(** The slots the stages of a list own are still free in a state. *)
Definition slots_free (stages : list Orchestrator.Stage) (st : PlannerState) : Prop :=
  forall s sl,
    In s stages -> Orchestrator.owned_slot s = Some sl -> Orchestrator.get_slot sl st = None.

(** The stream comes to its end: every step names a node and the stream
    does not raise. *)
Definition stream_completes (env : Env) (st : PlannerState) (cfg : Config) : bool :=
  forallb names_a_node (fst (stream env st cfg))
  && match snd (stream env st cfg) with
     | None => true
     | Some _ => false
     end.

(** An event that is neither an agent row nor a call of [app.stream]. *)
Definition silent (e : Event) : Prop :=
  row_label e = None /\ stream_args (call_of e) = None.

(** An event that, moreover, leaves the progress bar as it is. *)
Definition quiet (e : Event) : Prop :=
  silent e /\ progress_arg (call_of e) = None.

(** Lines 199-272: the [try] statement of [main] with its handler. *)
Definition guarded_run (env : Env) (i : Inputs) (agent_containers : gmap string nat)
    (initial_state : PlannerState) (config : Config) : M unit :=
  try_except (run_workflow env i agent_containers initial_state config) report_error.

(** The values the sidebar hands to the rest of [main]. *)
Definition inputs_of (env : Env) : Inputs :=
  match result (sidebar env) with
  | Returns i => i
  | Raises _ => mkInputs "" "" 0 0 0 "" false
  end.

(** The run reaches [app.stream]: the button is pressed, the dates pass the
    check, and the workflow is built and compiled. *)
Definition reaches_stream (env : Env) (i : Inputs) : bool :=
  in_plan_button i
  && negb (in_return_date i <=? in_departure_date i)
  && match build_workflow env, compile env with
     | None, None => true
     | _, _ => false
     end.

(** The itinerary shown in the expander. *)
Definition itinerary_shown (t : list Event) : list string :=
  omap (fun e => match e with
                 | Within (Expander _ _) (Do (markdown body)) => Some body
                 | _ => None
                 end) t.

(** The data offered for download, with the mime type. *)
Definition downloads (t : list Event) : list (string * string) :=
  omap (fun e => match e with
                 | Do (download_button _ data _ mime) => Some (data, mime)
                 | _ => None
                 end) t.

(** The heading and the text shown in a column. *)
Definition shown_in_column (col : nat) (t : list Event) : list Call :=
  omap (fun e => match e with
                 | Within (Column c) (Do call) => if Nat.eqb c col then Some call else None
                 | _ => None
                 end) t.

(** [s.isascii()]: every character is below 128.  The casing functions of
    [Py] are those of the interpreter on such strings. *)
Fixpoint isascii (s : string) : bool :=
  match s with
  | EmptyString => true
  | String c s' => (nat_of_ascii c <? 128)%nat && isascii s'
  end.

(** The calls that only show something on the page. *)
Definition is_display_call (c : Call) : bool :=
  match c with
  | markdown _ | subheader _ | columns _ | info _ | write _
  | download_button _ _ _ _ | progress _ | status_text _ | success _ | error _ => true
  | _ => false
  end.

Definition display_only (e : Event) : Prop := is_display_call (call_of e) = true.

(** The calls of the welcome page: text, headings and columns. *)
Definition is_text_call (c : Call) : bool :=
  match c with
  | markdown _ | subheader _ | columns _ => true
  | _ => false
  end.

Definition text_only (e : Event) : Prop := is_text_call (call_of e) = true.

(** The destination cards of the welcome page, with their column. *)
Definition cards (t : list Event) : list (nat * string) :=
  omap (fun e => match e with
                 | Within (Column i) (Do (markdown body)) => Some (i, body)
                 | _ => None
                 end) t.

(** A destination with the three highlights its card reads. *)
Definition has_three_highlights (item : string * DestInfo) : bool :=
  (3 <=? length (highlights (snd item)))%nat.

(** The number of leading destinations of a list that have three
    highlights. *)
Fixpoint cards_shown (items : list (string * DestInfo)) : nat :=
  match items with
  | [] => 0
  | item :: rest => if has_three_highlights item then S (cards_shown rest) else 0
  end.

(** The status lines shown, in order. *)
Definition status_lines (t : list Event) : list string :=
  omap (fun e => match call_of e with
                 | status_text body => Some body
                 | _ => None
                 end) t.

(** The calls into the workflow of a request that passes the date check,
    given how building and compiling end. *)
Definition workflow_calls (build compile_ : option Py.Exception)
    (initial_state : PlannerState) (config : Config) : list Call :=
  build_workflow_call
  :: match build with
     | Some _ => []
     | None =>
         compile_call
         :: match compile_ with
            | Some _ => []
            | None => [stream_call initial_state config]
            end
     end.

(** An environment whose date inputs keep the date the user picks within
    the bounds they are given. *)
Definition clamping_env (button_pressed : bool) (departure_pick return_pick : Z)
    (steps : list Step) (stream_error : option Py.Exception) : Env :=
  mkEnv 739000 (fun d => "day-" +:+ Py.str_of_int d) (fun d => "day-" +:+ Py.str_of_int d)
    [("tokyo", mkDestInfo "Japan" ["Shibuya"; "Senso-ji"; "Tsukiji"])]
    (fun _ options index => nth index options "")
    (fun label _ min_value max_value =>
       Z.max min_value
         (Z.min max_value
            (if String.eqb label "Departure Date" then departure_pick else return_pick)))
    (fun _ min_value max_value value => value)
    (fun _ value => value)
    (fun _ => button_pressed)
    (fun _ => None) (fun _ => None) None false
    "00000000-0000-4000-8000-000000000000" None None
    (fun _ _ => (steps, stream_error)).

(** The node a step reports: the first item of its dict. *)
Definition step_node (step : Step) : option (string * NodeState) := head step.

(** The node of the last step of a stream. *)
Definition last_node (steps : list Step) : option (string * NodeState) :=
  step ← last steps; step_node step.

(** The names of the nodes the steps of a list report. *)
Definition step_names (steps : list Step) : list string :=
  omap (fun step => fst <$> step_node step) steps.

(** The message the handler of the [try] shows for an exception. *)
Definition error_message (e : Py.Exception) : string :=
  "An error occurred while planning your trip: " +:+ Py.exc_str e.

(** The monitoring calls and warnings of a trace, in order. *)
Definition monitoring_calls (t : list Event) : list Call :=
  List.filter is_monitoring_call (map call_of t).

(** The same stream with every step cut down to its first item. *)
Definition first_items_only (env : Env) : Env :=
  with_stream env
    (fun st cfg => (map (take 1) (fst (stream env st cfg)), snd (stream env st cfg))).

(** [c in s] for a character [c]. *)
Fixpoint contains_char (c : ascii) (s : string) : bool :=
  match s with
  | EmptyString => false
  | String c' s' => Ascii.eqb c' c || contains_char c s'
  end.

(* ===================================================================== *)
(** * Laws of the effect monad *)
(* ===================================================================== *)

Lemma trace_bind {A B} (m : M A) (f : A -> M B) :
  trace (m ≫= f)
  = trace m ++ match result m with
               | Returns a => trace (f a)
               | Raises _ => []
               end.
Proof.
  destruct m as [t [a | e]]; unfold trace, result, mbind, M_bind; simpl.
  - destruct (f a); reflexivity.
  - now rewrite app_nil_r.
Qed.

Lemma result_bind {A B} (m : M A) (f : A -> M B) :
  result (m ≫= f)
  = match result m with
    | Returns a => result (f a)
    | Raises e => Raises e
    end.
Proof.
  destruct m as [t [a | e]]; unfold trace, result, mbind, M_bind; simpl.
  - destruct (f a); reflexivity.
  - reflexivity.
Qed.

Lemma trace_try_except {A} (m : M A) (h : Py.Exception -> M A) :
  trace (try_except m h)
  = trace m ++ match result m with
               | Returns _ => []
               | Raises e => trace (h e)
               end.
Proof.
  destruct m as [t [a | e]]; unfold trace, result, try_except; simpl.
  - now rewrite app_nil_r.
  - destruct (h e); reflexivity.
Qed.

Lemma result_try_except {A} (m : M A) (h : Py.Exception -> M A) :
  result (try_except m h)
  = match result m with
    | Returns a => Returns a
    | Raises e => result (h e)
    end.
Proof.
  destruct m as [t [a | e]]; unfold trace, result, try_except; simpl.
  - reflexivity.
  - destruct (h e); reflexivity.
Qed.

Lemma trace_within {A} (ctx : Ctx) (m : M A) :
  trace (within ctx m) = map (Within ctx) (trace m).
Proof. reflexivity. Qed.

Lemma result_within {A} (ctx : Ctx) (m : M A) :
  result (within ctx m) = result m.
Proof. reflexivity. Qed.

Lemma M_eta {A} (m : M A) : m = (trace m, result m).
Proof. now destruct m. Qed.

(* ===================================================================== *)
(** * The page up to the request *)
(* ===================================================================== *)

Lemma main_unfold (env : Env) (i : Inputs) :
  result (sidebar env) = Returns i ->
  main env
  = ([Do (set_page_config "🧭 AI Travel Planner" "✈️" "wide" "expanded");
      Do (title "🧭 AI Multi-Agent Travel Planner");
      Do (markdown "Plan your perfect trip with AI-powered travel specialists!")]
     ++ map (Within Sidebar) (trace (sidebar env))
     ++ trace (if in_plan_button i then
                 if in_return_date i <=? in_departure_date i then
                   emit (error "Return date must be after departure date!")
                 else plan_trip env i
               else welcome env),
     result (if in_plan_button i then
               if in_return_date i <=? in_departure_date i then
                 emit (error "Return date must be after departure date!")
               else plan_trip env i
             else welcome env)).
Proof.
  intros Hi. rewrite (M_eta (main env)). unfold main.
  rewrite !trace_bind, !result_bind. cbn [emit trace result fst snd].
  rewrite trace_within, result_within, Hi. reflexivity.
Qed.

(** C1: a request whose return date is the departure date or earlier is
    turned down before the workflow is touched: the page shows the error
    and [main] returns; the workflow is not built, compiled or streamed,
    and nothing is reported for any step. *)
Theorem C1_return_not_after_departure_is_rejected (env : Env) (i : Inputs) :
  result (sidebar env) = Returns i ->
  in_plan_button i = true ->
  in_return_date i <= in_departure_date i ->
  main env
  = ([Do (set_page_config "🧭 AI Travel Planner" "✈️" "wide" "expanded");
      Do (title "🧭 AI Multi-Agent Travel Planner");
      Do (markdown "Plan your perfect trip with AI-powered travel specialists!")]
     ++ map (Within Sidebar) (trace (sidebar env))
     ++ [Do (error "Return date must be after departure date!")],
     Returns tt)
  /\ core_calls (trace (main env)) = []
  /\ stream_calls (trace (main env)) = []
  /\ step_reports (trace (main env)) = [].
Proof.
  intros Hi Hbutton Hdates.
  assert (Hmain := main_unfold env i Hi).
  rewrite Hbutton in Hmain.
  apply Z.leb_le in Hdates. rewrite Hdates in Hmain.
  split; [exact Hmain |].
  rewrite Hmain. split; [| split]; reflexivity.
Qed.

Lemma C1_return_not_after_departure_is_rejected_witness :
  let env := sample_env true 739021 739021 2 [] None in
  let i := mkInputs "Seattle" "Tokyo" 739021 739021 2
             "We'd love a boutique hotel, business-class flights and memorable activities."
             true in
  result (sidebar env) = Returns i
  /\ in_plan_button i = true
  /\ in_return_date i <= in_departure_date i
  /\ result (main env) = Returns tt
  /\ core_calls (trace (main env)) = [].
Proof.
  intros env i.
  assert (H1 : result (sidebar env) = Returns i) by reflexivity.
  assert (H2 : in_plan_button i = true) by reflexivity.
  assert (H3 : in_return_date i <= in_departure_date i) by (simpl; lia).
  pose proof (C1_return_not_after_departure_is_rejected env i H1 H2 H3) as [Hm [Hc _]].
  split; [exact H1 |]. split; [exact H2 |]. split; [exact H3 |].
  split; [rewrite Hm; reflexivity | exact Hc].
Defined.

(* ===================================================================== *)
(** * The agent rows *)
(* ===================================================================== *)

Lemma make_containers_eq (agents : list string) (i : nat) (m : gmap string nat) :
  make_containers agents i m = (rows_of agents i, Returns (containers_of agents i m)).
Proof.
  revert i m. induction agents as [| agent rest IH]; intros i m.
  - reflexivity.
  - cbn [make_containers rows_of containers_of].
    rewrite (M_eta (_ ≫= _)), trace_bind, result_bind, IH. reflexivity.
Qed.

Lemma containers_of_lookup (agents : list string) (i : nat) (m : gmap string nat)
    (name : string) :
  is_Some (containers_of agents i m !! name) <-> In name agents \/ is_Some (m !! name).
Proof.
  revert i m. induction agents as [| agent rest IH]; intros i m; cbn [containers_of In].
  - tauto.
  - rewrite IH. destruct (decide (agent = name)) as [-> | Hne].
    + rewrite lookup_insert_eq. split; [intros _; left; now left | intros _; right; eauto].
    + rewrite lookup_insert_ne by exact Hne. tauto.
Qed.

(** [node_name in agent_containers] holds for the names of [agent_steps]
    and no other. *)
Lemma in_agent_containers (name : string) :
  is_Some (containers_of agent_steps 0 ∅ !! name) <-> In name agent_steps.
Proof.
  rewrite containers_of_lookup, lookup_empty. split.
  - intros [H | [x H]]; [exact H | discriminate].
  - now left.
Qed.

(* ===================================================================== *)
(** * The loop over the stream *)
(* ===================================================================== *)

Lemma show_latest_message_returns (cs : gmap string nat) (name : string)
    (node_state : NodeState) :
  result (show_latest_message cs name node_state) = Returns tt.
Proof.
  unfold show_latest_message.
  destruct (has_messages node_state); [| reflexivity].
  destruct (List.last _ _); [| reflexivity].
  destruct (cs !! name); reflexivity.
Qed.

Lemma loop_body_eq (cs : gmap string nat) (total : Z) (name : string)
    (node_state : NodeState) (more : Step) (vars : LoopVars) :
  loop_body cs total ((name, node_state) :: more) vars
  = ([Do (progress (progress_value (step_count vars + 1) total));
      Do (status_text ("🔄 " +:+ format_agent_name name +:+ " is working..."))]
     ++ trace (show_latest_message cs name node_state),
     Returns (mkLoopVars (step_count vars + 1) (Some (name, node_state)))).
Proof.
  unfold loop_body.
  rewrite (M_eta (_ ≫= _)), !trace_bind, !result_bind.
  cbn [emit trace result fst snd].
  rewrite show_latest_message_returns.
  cbn [mret M_ret fst snd app]. rewrite app_nil_r. reflexivity.
Qed.

(** The loop handles the steps in order, one by one, and stops with
    [StopIteration] at an empty dict. *)
Lemma stream_loop_result (cs : gmap string nat) (total : Z) (steps : list Step)
    (vars : LoopVars) :
  result (stream_loop cs total steps vars)
  = if forallb names_a_node steps
    then Returns (vars_after steps vars)
    else Raises StopIteration.
Proof.
  revert vars. induction steps as [| step rest IH]; intros vars.
  - reflexivity.
  - cbn [stream_loop]. rewrite result_bind.
    destruct step as [| [name node_state] more]; [reflexivity |].
    rewrite loop_body_eq. cbn [result snd]. rewrite IH. reflexivity.
Qed.

Lemma vars_after_step_count (steps : list Step) (vars : LoopVars) :
  step_count (vars_after steps vars) = step_count vars + Z.of_nat (length steps).
Proof.
  revert vars. induction steps as [| step rest IH]; intros vars; cbn [vars_after length].
  - lia.
  - rewrite IH. cbn [step_count]. lia.
Qed.

Lemma handled_names_a_node (steps : list Step) :
  forallb names_a_node (handled steps) = true.
Proof.
  induction steps as [| step rest IH]; [reflexivity |].
  destruct step as [| p more]; [reflexivity | exact IH].
Qed.

(** What the loop shows for the steps it handles: the progress value and the
    status line of each, numbered from the count it starts with. *)
Lemma progress_values_stream_loop (cs : gmap string nat) (total : Z)
    (steps : list Step) (vars : LoopVars) :
  progress_values (trace (stream_loop cs total steps vars))
  = map (fun p => progress_value (fst p) total) (counted (step_count vars) (handled steps)).
Proof.
  revert vars. induction steps as [| step rest IH]; intros vars.
  - reflexivity.
  - cbn [stream_loop]. rewrite trace_bind.
    destruct step as [| [name node_state] more]; [reflexivity |].
    rewrite loop_body_eq. cbn [result trace fst snd].
    unfold progress_values in *. rewrite !omap_app, IH.
    cbn [handled counted map fst step_count].
    assert (Hshow : omap (fun e => progress_arg (call_of e))
                      (trace (show_latest_message cs name node_state)) = []).
    { unfold show_latest_message.
      destruct (has_messages node_state); [| reflexivity].
      destruct (List.last _ _); [| reflexivity].
      destruct (cs !! name); reflexivity. }
    rewrite Hshow. reflexivity.
Qed.

(* ===================================================================== *)
(** * Runs of the orchestrator *)
(* ===================================================================== *)

Section Runs.

Import Orchestrator.

Variable execute : Agents.

Lemma owned_slot_inj (s s' : Stage) (sl : Slot) :
  owned_slot s = Some sl -> owned_slot s' = Some sl -> s = s'.
Proof. destruct s, s'; cbn; congruence. Qed.

Lemma get_set_slot_other (sl sl' : Slot) (v : string) (st : PlannerState) :
  sl <> sl' -> get_slot sl' (set_slot sl v st) = get_slot sl' st.
Proof. destruct sl, sl'; intros H; try reflexivity; now contradict H. Qed.

Lemma get_slot_append_log (sl : Slot) (entries : list Message) (st : PlannerState) :
  get_slot sl (append_log entries st) = get_slot sl st.
Proof. now destruct sl. Qed.

Lemma get_slot_set_marker (sl : Slot) (name : string) (st : PlannerState) :
  get_slot sl (set_marker name st) = get_slot sl st.
Proof. now destruct sl. Qed.

(** An assignment to a free slot goes through and leaves the other slots
    as they are. *)
Lemma assign_free (o : option Slot) (st : PlannerState) (a : Assignment o) :
  (forall sl, o = Some sl -> get_slot sl st = None) ->
  exists st', assign o st a = inr st'
              /\ forall sl', o <> Some sl' -> get_slot sl' st' = get_slot sl' st.
Proof.
  destruct o as [sl |]; cbn in *; intros Hfree.
  - destruct a as [v |].
    + rewrite (Hfree sl eq_refl). eexists. split; [reflexivity |].
      intros sl' Hne. apply get_set_slot_other. congruence.
    + eexists. split; [reflexivity | reflexivity].
  - eexists. split; [reflexivity | reflexivity].
Qed.

(** A stage whose slot is free is completed, whatever its agent does. *)
Lemma stage_completes (s : Stage) (st : PlannerState) :
  (forall sl, owned_slot s = Some sl -> get_slot sl st = None) ->
  exists st',
    match execute s (set_marker (stage_name s) st) with
    | Completed u => merge s (set_marker (stage_name s) st) u
    | AgentFailure cause => inr (record_failure s cause (set_marker (stage_name s) st))
    end = inr st'
    /\ forall sl', owned_slot s <> Some sl' -> get_slot sl' st' = get_slot sl' st.
Proof.
  intros Hfree. destruct (execute s _) as [u | cause].
  - unfold merge.
    destruct (assign_free (owned_slot s)
                (append_log (new_entries u) (set_marker (stage_name s) st))
                (assignment u)) as [st' [Heq Hother]].
    + intros sl Hsl. rewrite get_slot_append_log, get_slot_set_marker. now apply Hfree.
    + exists st'. split; [exact Heq |].
      intros sl' Hne. rewrite (Hother sl' Hne).
      now rewrite get_slot_append_log, get_slot_set_marker.
  - eexists. split; [reflexivity |].
    intros sl' _. unfold record_failure.
    now rewrite get_slot_append_log, get_slot_set_marker.
Qed.

(** A list of stages without a repeated stage, run on a state in which
    their slots are free and under a ceiling that leaves room for them,
    yields one StepEvent per stage, in the order of the list, counted one
    by one, and the run is completed. *)
Lemma run_from_complete (stages : list Stage) :
  NoDup stages ->
  forall (st : PlannerState) (stepCeiling counter : nat),
    slots_free stages st ->
    (counter + length stages <= stepCeiling)%nat ->
    map ev_stage (fst (run_from execute st stages stepCeiling counter))
    = map stage_name stages
    /\ map ev_counter (fst (run_from execute st stages stepCeiling counter))
       = seq (S counter) (length stages)
    /\ snd (run_from execute st stages stepCeiling counter) = completed.
Proof.
  induction 1 as [| s rest Hnotin Hnodup IH]; intros st stepCeiling counter Hfree Hroom.
  - now cbn.
  - cbn [run_from]. cbn [length] in Hroom.
    destruct (Nat.leb_spec stepCeiling counter) as [Hle | Hlt]; [lia |].
    destruct (stage_completes s st) as [st' [Heq Hother]].
    { intros sl Hsl. apply (Hfree s sl); [now left | exact Hsl]. }
    rewrite Heq.
    destruct (IH st' stepCeiling (S counter)) as [Hnames [Hcounters Hend]].
    { intros s' sl' Hin Hsl'. rewrite Hother.
      - apply (Hfree s' sl'); [now right | exact Hsl'].
      - intros Hs. apply Hnotin.
        rewrite list_elem_of_In.
        now rewrite (owned_slot_inj s s' sl' Hs Hsl'). }
    { lia. }
    destruct (run_from execute st' rest stepCeiling (S counter)) as [events end_].
    cbn [fst snd map length seq] in *.
    now rewrite Hnames, Hcounters, Hend.
Qed.

End Runs.

Lemma stage_names_are_agent_steps :
  map Orchestrator.stage_name Orchestrator.stage_list = agent_steps.
Proof. reflexivity. Qed.

Lemma stage_list_NoDup : NoDup Orchestrator.stage_list.
Proof.
  unfold Orchestrator.stage_list.
  repeat (apply NoDup_cons; split; [rewrite list_elem_of_In; cbn; intuition discriminate |]).
  apply NoDup_nil_2.
Qed.

Lemma initial_slots_free (env : Env) (i : Inputs) (sid : string)
    (stages : list Orchestrator.Stage) :
  slots_free stages (make_initial_state env i sid).
Proof. intros s sl _ _. now destruct sl. Qed.

Lemma step_of_event_names_a_node (events : list Orchestrator.StepEvent) :
  forallb names_a_node (map Orchestrator.step_of_event events) = true.
Proof. induction events as [| ev rest IH]; [reflexivity | exact IH]. Qed.

(* ===================================================================== *)
(** * The shape of a run of [main] *)
(* ===================================================================== *)

Lemma silent_none (t : list Event) :
  Forall silent t -> row_labels t = [] /\ stream_calls t = [].
Proof.
  induction 1 as [| e rest [Hrow Hargs] _ [IHrow IHargs]]; [now split |].
  unfold row_labels, stream_calls in *. cbn [omap list_omap].
  now rewrite Hrow, Hargs, IHrow, IHargs.
Qed.

Lemma quiet_is_silent (t : list Event) : Forall quiet t -> Forall silent t.
Proof. induction 1 as [| e rest [He _] _ IH]; [apply Forall_nil_2 | now apply Forall_cons]. Qed.

Lemma quiet_none (t : list Event) :
  Forall quiet t -> row_labels t = [] /\ stream_calls t = [] /\ progress_values t = [].
Proof.
  intros H.
  assert (Hprogress : progress_values t = []).
  { induction H as [| e rest [_ He] _ IH]; [reflexivity |].
    unfold progress_values in *. cbn [omap list_omap]. now rewrite He, IH. }
  destruct (silent_none t (quiet_is_silent t H)) as [Hrows Hcalls].
  now repeat split.
Qed.

Ltac silent_list :=
  repeat (apply Forall_cons; split; [split; reflexivity |]); apply Forall_nil_2.

Ltac quiet_list :=
  repeat (apply Forall_cons; split; [split; [split |]; reflexivity |]); apply Forall_nil_2.

Lemma show_latest_message_silent (cs : gmap string nat) (name : string)
    (node_state : NodeState) :
  Forall silent (trace (show_latest_message cs name node_state)).
Proof.
  unfold show_latest_message.
  destruct (has_messages node_state); [| silent_list].
  destruct (List.last _ _); [| silent_list].
  destruct (cs !! name); silent_list.
Qed.

Lemma stream_loop_silent (cs : gmap string nat) (total : Z) (steps : list Step)
    (vars : LoopVars) :
  Forall silent (trace (stream_loop cs total steps vars)).
Proof.
  revert vars. induction steps as [| step rest IH]; intros vars.
  - silent_list.
  - cbn [stream_loop]. rewrite trace_bind.
    destruct step as [| [name node_state] more]; [silent_list |].
    rewrite loop_body_eq. cbn [trace result fst snd].
    repeat (apply Forall_app; split); [silent_list | | apply IH].
    apply show_latest_message_silent.
Qed.

Lemma show_itinerary_returns (env : Env) (i : Inputs) (final_state : NodeState) :
  result (show_itinerary env i final_state) = Returns tt.
Proof.
  unfold show_itinerary.
  destruct (Py.truthy_str (ns_final_itinerary final_state)); [| reflexivity].
  destruct (Py.truthy_str (ns_flight_summary final_state)),
           (Py.truthy_str (ns_hotel_summary final_state)),
           (Py.truthy_str (ns_activities_summary final_state)); reflexivity.
Qed.

Lemma show_itinerary_quiet (env : Env) (i : Inputs) (final_state : NodeState) :
  Forall quiet (trace (show_itinerary env i final_state)).
Proof.
  unfold show_itinerary.
  destruct (Py.truthy_str (ns_final_itinerary final_state)); [| quiet_list].
  destruct (Py.truthy_str (ns_flight_summary final_state)),
           (Py.truthy_str (ns_hotel_summary final_state)),
           (Py.truthy_str (ns_activities_summary final_state)); quiet_list.
Qed.

Lemma destination_columns_quiet (items : list (string * DestInfo)) (i : nat) :
  Forall quiet (trace (destination_columns items i)).
Proof.
  revert i. induction items as [| [dest info_] rest IH]; intros i.
  - quiet_list.
  - cbn [destination_columns]. rewrite trace_bind, trace_within, result_within.
    apply Forall_app. split.
    + unfold getitem.
      destruct (highlights info_ !! 0%nat); [| quiet_list].
      destruct (highlights info_ !! 1%nat); [| quiet_list].
      destruct (highlights info_ !! 2%nat); quiet_list.
    + destruct (result _); [apply IH | quiet_list].
Qed.

Lemma welcome_quiet (env : Env) : Forall quiet (trace (welcome env)).
Proof.
  unfold welcome. rewrite !trace_bind. cbn [emit trace result fst snd].
  repeat (apply Forall_app; split); try quiet_list.
  apply destination_columns_quiet.
Qed.

(** The body of the [try], piece by piece. *)
Lemma run_workflow_eq (env : Env) (i : Inputs) (cs : gmap string nat)
    (st : PlannerState) (cfg : Config) :
  run_workflow env i cs st cfg
  = (Do (stream_call st cfg)
     :: trace (stream_loop cs 5 (fst (stream env st cfg)) (mkLoopVars 0 None))
     ++ match result (stream_loop cs 5 (fst (stream env st cfg)) (mkLoopVars 0 None)),
              snd (stream env st cfg) with
        | Returns vars, None =>
            [Do (progress 1); Do (status_text "✨ Trip planning complete!")]
            ++ match node vars with
               | Some (_, final_state) => trace (show_itinerary env i final_state)
               | None => []
               end
        | _, _ => []
        end,
     match result (stream_loop cs 5 (fst (stream env st cfg)) (mkLoopVars 0 None)),
           snd (stream env st cfg) with
     | Returns vars, None =>
         match node vars with
         | Some _ => Returns tt
         | None => Raises UnboundLocalError_node_state
         end
     | Returns _, Some e => Raises e
     | Raises e, _ => Raises e
     end).
Proof.
  unfold run_workflow. change (Z.of_nat (length agent_steps)) with 5.
  rewrite (M_eta (_ ≫= _)), !trace_bind, !result_bind.
  cbn [emit trace result fst snd app].
  destruct (stream_loop cs 5 (fst (stream env st cfg)) (mkLoopVars 0 None))
    as [t [vars | e]]; cbn [trace result fst snd]; [| reflexivity].
  rewrite ?trace_bind, ?result_bind.
  destruct (snd (stream env st cfg)) as [e |]; [reflexivity |].
  cbn [stream_end mret M_ret emit trace result fst snd app].
  rewrite ?trace_bind, ?result_bind. cbn [emit trace result fst snd app].
  rewrite ?trace_bind, ?result_bind.
  destruct (node vars) as [[name final_state] |]; cbn [mret M_ret raise trace result fst snd app].
  - now rewrite show_itinerary_returns.
  - reflexivity.
Qed.

(** The [try] statement never lets an exception through. *)
Lemma guarded_run_returns (env : Env) (i : Inputs) (cs : gmap string nat)
    (st : PlannerState) (cfg : Config) :
  result (guarded_run env i cs st cfg) = Returns tt.
Proof.
  unfold guarded_run. rewrite result_try_except.
  destruct (result (run_workflow env i cs st cfg)) as [[] | e]; reflexivity.
Qed.

Lemma guarded_run_trace (env : Env) (i : Inputs) (cs : gmap string nat)
    (st : PlannerState) (cfg : Config) :
  exists t, trace (guarded_run env i cs st cfg) = Do (stream_call st cfg) :: t
            /\ Forall silent t.
Proof.
  unfold guarded_run. rewrite trace_try_except, run_workflow_eq.
  cbn [trace result fst snd]. eexists. split; [rewrite <- app_comm_cons; reflexivity |].
  repeat (apply Forall_app; split).
  - apply stream_loop_silent.
  - destruct (result (stream_loop _ _ _ _)) as [vars | e]; [| silent_list].
    destruct (snd (stream env st cfg)); [silent_list |].
    apply Forall_app; split; [silent_list |].
    destruct (node vars) as [[name final_state] |]; [apply quiet_is_silent, show_itinerary_quiet | silent_list].
  - destruct (result (stream_loop _ _ _ _)) as [vars | e]; [| silent_list].
    destruct (snd (stream env st cfg)); [silent_list |].
    destruct (node vars); silent_list.
Qed.

Lemma trip_summary_eq (i : Inputs) :
  trip_summary i
  = ([Do (columns 3);
      Within (Column 0) (Do (info ("**Route:** " +:+ in_origin i +:+ " → " +:+ in_destination i)));
      Within (Column 1)
        (Do (info ("**Duration:** "
                   +:+ Py.str_of_int (in_return_date i - in_departure_date i) +:+ " days")));
      Within (Column 2) (Do (info ("**Travelers:** " +:+ Py.str_of_int (in_travelers i))));
      Do (markdown "---")],
     Returns tt).
Proof. reflexivity. Qed.

(** Monitoring never raises: its calls are made and, when one fails, the
    warning is shown. *)
Lemma setup_monitoring_eq (env : Env) :
  setup_monitoring env
  = (Do (configure_azure_monitor_call (getenv env "APPLICATION_INSIGHTS_CONNECTION_STRING"))
     :: match configure_azure_monitor env
                (getenv env "APPLICATION_INSIGHTS_CONNECTION_STRING"),
              configure_otlp_tracing env with
        | Some e, _ => [Do (warning ("Monitoring setup failed: " +:+ Py.exc_str e))]
        | None, Some e =>
            [Do configure_otlp_tracing_call;
             Do (warning ("Monitoring setup failed: " +:+ Py.exc_str e))]
        | None, None => [Do configure_otlp_tracing_call]
        end,
     Returns tt).
Proof.
  unfold setup_monitoring.
  destruct (configure_azure_monitor env _) as [e |]; [reflexivity |].
  destruct (configure_otlp_tracing env) as [e |]; reflexivity.
Qed.

Lemma stream_with_updates_eq (env : Env) (i : Inputs) (st : PlannerState) (cfg : Config) :
  stream_with_updates env i st cfg
  = ([Do (progress_new 0); Do (empty status_placeholder);
      Do (subheader "🤖 AI Agents Working on Your Trip")]
     ++ rows_of agent_steps 0
     ++ trace (guarded_run env i (containers_of agent_steps 0 ∅) st cfg),
     Returns tt).
Proof.
  unfold stream_with_updates.
  rewrite (M_eta (_ ≫= _)), ?trace_bind, ?result_bind.
  cbn [emit trace result fst snd].
  rewrite ?trace_bind, ?result_bind. cbn [emit trace result fst snd].
  rewrite ?trace_bind, ?result_bind. cbn [emit trace result fst snd].
  rewrite make_containers_eq. cbn [trace result fst snd].
  fold (guarded_run env i (containers_of agent_steps 0 ∅) st cfg).
  now rewrite guarded_run_returns.
Qed.

Lemma start_workflow_eq (env : Env) (i : Inputs) :
  start_workflow env i
  = ((if session_has_workflow_steps env then [] else [Do session_state_set_workflow_steps])
     ++ Do build_workflow_call
     :: match build_workflow env, compile env with
        | Some _, _ => []
        | None, Some _ => [Do compile_call]
        | None, None =>
            Do compile_call
            :: trace (stream_with_updates env i (make_initial_state env i (uuid4 env))
                        (make_config (uuid4 env)))
        end,
     match build_workflow env, compile env with
     | Some e, _ => Raises e
     | None, Some e => Raises e
     | None, None => Returns tt
     end).
Proof.
  unfold start_workflow.
  rewrite (M_eta (_ ≫= _)), ?trace_bind, ?result_bind.
  destruct (session_has_workflow_steps env);
    cbn [mret M_ret emit trace result fst snd app];
    rewrite ?trace_bind, ?result_bind;
    (destruct (build_workflow env) as [e |]; [reflexivity |]);
    cbn [call_may_raise trace result fst snd app];
    rewrite ?trace_bind, ?result_bind;
    (destruct (compile env) as [e |]; [reflexivity |]);
    cbn [call_may_raise trace result fst snd app];
    now rewrite stream_with_updates_eq.
Qed.

Lemma plan_trip_eq (env : Env) (i : Inputs) :
  plan_trip env i
  = (trace (trip_summary i) ++ trace (setup_monitoring env) ++ trace (start_workflow env i),
     result (start_workflow env i)).
Proof.
  unfold plan_trip.
  rewrite (M_eta (_ ≫= _)), ?trace_bind, ?result_bind.
  rewrite trip_summary_eq. cbn [trace result fst snd].
  rewrite ?trace_bind, ?result_bind, setup_monitoring_eq. reflexivity.
Qed.

Lemma sidebar_quiet (env : Env) :
  Forall quiet (map (Within Sidebar) (trace (sidebar env))).
Proof. cbn. quiet_list. Qed.

Lemma setup_monitoring_quiet (env : Env) : Forall quiet (trace (setup_monitoring env)).
Proof.
  rewrite setup_monitoring_eq. cbn [trace fst].
  destruct (configure_azure_monitor env _); [quiet_list |].
  destruct (configure_otlp_tracing env); quiet_list.
Qed.

Lemma row_labels_app (t1 t2 : list Event) :
  row_labels (t1 ++ t2) = row_labels t1 ++ row_labels t2.
Proof. apply omap_app. Qed.

Lemma stream_calls_app (t1 t2 : list Event) :
  stream_calls (t1 ++ t2) = stream_calls t1 ++ stream_calls t2.
Proof. apply omap_app. Qed.

(** The agent rows and the calls of [app.stream] of a whole run of [main]:
    none, or the five rows and one call with the start state and the
    configuration of lines 150-177. *)
Lemma main_rows_and_stream_calls (env : Env) (i : Inputs) :
  result (sidebar env) = Returns i ->
  row_labels (trace (main env))
  = (if reaches_stream env i then row_labels (rows_of agent_steps 0) else [])
  /\ stream_calls (trace (main env))
     = (if reaches_stream env i
        then [(make_initial_state env i (uuid4 env), make_config (uuid4 env))]
        else []).
Proof.
  intros Hi. rewrite (main_unfold env i Hi). cbn [trace fst].
  unfold reaches_stream. rewrite !row_labels_app, !stream_calls_app.
  destruct (silent_none _ (quiet_is_silent _ (sidebar_quiet env))) as [-> ->].
  destruct (in_plan_button i); cbn [andb];
    [| destruct (silent_none _ (quiet_is_silent _ (welcome_quiet env))) as [-> ->]; now split].
  destruct (in_return_date i <=? in_departure_date i); cbn [negb andb]; [now split |].
  rewrite plan_trip_eq. cbn [trace fst]. rewrite !row_labels_app, !stream_calls_app.
  destruct (silent_none _ (quiet_is_silent _ (setup_monitoring_quiet env))) as [-> ->].
  rewrite trip_summary_eq, start_workflow_eq. cbn [trace fst].
  rewrite !row_labels_app, !stream_calls_app.
  destruct (session_has_workflow_steps env), (build_workflow env), (compile env);
    try (now split).
  all: rewrite stream_with_updates_eq; cbn [trace fst];
    destruct (guarded_run_trace env i (containers_of agent_steps 0 ∅)
                (make_initial_state env i (uuid4 env)) (make_config (uuid4 env)))
      as [t [-> Hsilent]];
    destruct (silent_none t Hsilent) as [Hrows Hcalls];
    rewrite !app_comm_cons, !row_labels_app, !stream_calls_app;
    change (Do (stream_call ?a ?b) :: t) with ([Do (stream_call a b)] ++ t);
    rewrite !row_labels_app, !stream_calls_app, Hrows, Hcalls;
    split; reflexivity.
Qed.

Lemma sidebar_result (env : Env) : result (sidebar env) = Returns (inputs_of env).
Proof. reflexivity. Qed.

Lemma format_agent_names :
  map format_agent_name agent_steps
  = ["Coordinator"; "Flight Specialist"; "Hotel Specialist"; "Activity Specialist";
     "Plan Synthesizer"].
Proof. reflexivity. Qed.

(** C3: the stages are the fixed list [agent_steps] of five agents:
    coordinator, flight specialist, hotel specialist, activity specialist and
    plan synthesizer, in this order and without a repetition.  The list does
    not depend on the run: every run of [main] that reaches the workflow
    shows these five rows, in this order, and any other run shows none. *)
Theorem C3_stage_sequence_is_the_fixed_list_of_five :
  agent_steps
  = ["coordinator"; "flight_specialist"; "hotel_specialist"; "activity_specialist";
     "plan_synthesizer"]
  /\ length agent_steps = 5%nat
  /\ NoDup agent_steps
  /\ map format_agent_name agent_steps
     = ["Coordinator"; "Flight Specialist"; "Hotel Specialist"; "Activity Specialist";
        "Plan Synthesizer"]
  /\ forall env : Env,
       row_labels (trace (main env))
       = if reaches_stream env (inputs_of env)
         then ["**Coordinator**"; "**Flight Specialist**"; "**Hotel Specialist**";
               "**Activity Specialist**"; "**Plan Synthesizer**"]
         else [].
Proof.
  split; [reflexivity |]. split; [reflexivity |]. split.
  { unfold agent_steps.
    repeat (apply NoDup_cons; split; [rewrite list_elem_of_In; cbn; intuition discriminate |]).
    apply NoDup_nil_2. }
  split; [exact format_agent_names |].
  intros env.
  destruct (main_rows_and_stream_calls env (inputs_of env) (sidebar_result env)) as [-> _].
  reflexivity.
Qed.

(** C4: every run of [main] that reaches the workflow calls [app.stream]
    once, with the start state and the configuration of this run, and the
    recursion limit of that configuration is 10; no other run calls it. *)
Theorem C4_stream_is_called_with_recursion_limit_10 (env : Env) :
  stream_calls (trace (main env))
  = (if reaches_stream env (inputs_of env)
     then [(make_initial_state env (inputs_of env) (uuid4 env), make_config (uuid4 env))]
     else [])
  /\ Forall (fun call => recursion_limit (snd call) = 10) (stream_calls (trace (main env))).
Proof.
  destruct (main_rows_and_stream_calls env (inputs_of env) (sidebar_result env)) as [_ ->].
  split; [reflexivity |].
  destruct (reaches_stream env (inputs_of env)).
  - apply Forall_cons. split; [reflexivity | apply Forall_nil_2].
  - apply Forall_nil_2.
Qed.

(** C6: the number of travelers is read from a number input with the bounds
    1 and 10 (and the start value 2).  As the widget keeps its value within
    the bounds it is given, the count that [main] reads, and the one in the
    start state of every call of [app.stream], is between 1 and 10. *)
Theorem C6_traveler_count_is_between_1_and_10 (env : Env) :
  (forall label min_value max_value value,
      min_value <= value <= max_value ->
      min_value <= number_input env label min_value max_value value <= max_value) ->
  In (Within Sidebar (Do (number_input_call "👥 Number of Travelers" 1 10 2)))
     (trace (main env))
  /\ in_travelers (inputs_of env) = number_input env "👥 Number of Travelers" 1 10 2
  /\ 1 <= in_travelers (inputs_of env) <= 10
  /\ Forall (fun call => 1 <= travellers (fst call) <= 10) (stream_calls (trace (main env))).
Proof.
  intros Hwidget.
  assert (Hrange : 1 <= in_travelers (inputs_of env) <= 10).
  { apply (Hwidget "👥 Number of Travelers" 1 10 2). lia. }
  split.
  { rewrite (main_unfold env (inputs_of env) (sidebar_result env)). cbn [trace fst].
    apply in_or_app. right. apply in_or_app. left. cbn. tauto. }
  split; [reflexivity |]. split; [exact Hrange |].
  destruct (main_rows_and_stream_calls env (inputs_of env) (sidebar_result env)) as [_ ->].
  destruct (reaches_stream env (inputs_of env)).
  - apply Forall_cons. split; [exact Hrange | apply Forall_nil_2].
  - apply Forall_nil_2.
Qed.

Lemma C6_traveler_count_is_between_1_and_10_witness :
  let env := sample_env true 739021 739026 12 [] None in
  (forall label min_value max_value value,
      min_value <= value <= max_value ->
      min_value <= number_input env label min_value max_value value <= max_value)
  /\ in_travelers (inputs_of env) = 10
  /\ Forall (fun call => 1 <= travellers (fst call) <= 10) (stream_calls (trace (main env))).
Proof.
  intros env.
  assert (Hwidget : forall label min_value max_value value,
             min_value <= value <= max_value ->
             min_value <= number_input env label min_value max_value value <= max_value).
  { intros label lo hi v Hv. cbn. lia. }
  split; [exact Hwidget |]. split; [reflexivity |].
  exact (proj2 (proj2 (proj2 (C6_traveler_count_is_between_1_and_10 env Hwidget)))).
Defined.

(* ===================================================================== *)
(** * The preview of the newest message *)
(* ===================================================================== *)

Lemma length_append (s1 s2 : string) :
  String.length (s1 +:+ s2) = (String.length s1 + String.length s2)%nat.
Proof. induction s1 as [| c s1 IH]; simpl; [reflexivity | now f_equal]. Qed.

Lemma length_slice_to (n : nat) (s : string) :
  String.length (Py.slice_to n s) = Nat.min n (String.length s).
Proof.
  unfold Py.slice_to. revert s. induction n as [| n IH]; intros s.
  - now destruct s.
  - destruct s as [| c s]; cbn; [reflexivity | now rewrite IH].
Qed.

Lemma prefix_slice_to (n : nat) (s : string) :
  String.prefix (Py.slice_to n s) s = true.
Proof.
  unfold Py.slice_to. revert s. induction n as [| n IH]; intros s.
  - now destruct s.
  - destruct s as [| c s]; cbn; [reflexivity |].
    destruct (ascii_dec c c) as [_ | Hne]; [apply IH | now contradict Hne].
Qed.

(** The preview is the content up to 300 characters, and beyond that the
    first 300 characters followed by three dots. *)
Lemma preview_spec (content : string) :
  preview content
  = (if (String.length content <=? 300)%nat then content
     else Py.slice_to 300 content +:+ "...")
  /\ String.prefix (Py.slice_to 300 content) content = true
  /\ (String.length (preview content) <= 303)%nat.
Proof.
  split; [| split].
  - unfold preview.
    destruct (Nat.ltb_spec 300 (String.length content)) as [Hlong | Hshort],
             (Nat.leb_spec (String.length content) 300) as [Hle | Hgt];
      try reflexivity; lia.
  - apply prefix_slice_to.
  - unfold preview.
    destruct (Nat.ltb_spec 300 (String.length content)) as [Hlong | Hshort].
    + rewrite length_append, length_slice_to. cbn [String.length]. lia.
    + lia.
Qed.

(** The row of each agent of [agent_steps] is the one made at its place in
    the list. *)
Lemma agent_container_lookup (name : string) :
  In name agent_steps ->
  exists i, agent_steps !! i = Some name
            /\ containers_of agent_steps 0 ∅ !! name = Some i.
Proof.
  cbn [agent_steps In].
  intros [<- | [<- | [<- | [<- | [<- | []]]]]];
    [exists 0%nat | exists 1%nat | exists 2%nat | exists 3%nat | exists 4%nat];
    split; vm_compute; reflexivity.
Qed.

(** No preview is shown for a step without messages, for a newest entry that
    is not a message, or for a node that is not in [agent_steps]. *)
Lemma show_latest_message_nothing (cs : gmap string nat) (name : string)
    (node_state : NodeState) :
  has_messages node_state = false
  \/ List.last (default [] (ns_messages node_state)) NotAMessage = NotAMessage
  \/ cs !! name = None ->
  show_latest_message cs name node_state = ([], Returns tt).
Proof.
  unfold show_latest_message. intros [H | [H | H]].
  - now rewrite H.
  - rewrite H. now destruct (has_messages node_state).
  - rewrite H. destruct (has_messages node_state); [| reflexivity].
    now destruct (List.last _ _).
Qed.

(** C5, as the script has it: for a step whose state has messages, the
    newest of which is a message, and whose node is one of [agent_steps], the
    row of that agent shows one preview: the whole content when it has at
    most 300 characters, and otherwise its first 300 characters followed by
    three dots, 303 characters in all. *)
Theorem C5_preview_is_first_300_characters_and_an_ellipsis
    (name : string) (node_state : NodeState) (type_ content : string) :
  has_messages node_state = true ->
  List.last (default [] (ns_messages node_state)) NotAMessage = BaseMessage type_ content ->
  In name agent_steps ->
  exists i,
    agent_steps !! i = Some name
    /\ show_latest_message (containers_of agent_steps 0 ∅) name node_state
       = ([Within (Placeholder (agent_placeholder i))
             (Do (success ("✅ " +:+ preview content)))],
          Returns tt)
    /\ preview content
       = (if (String.length content <=? 300)%nat then content
          else Py.slice_to 300 content +:+ "...")
    /\ String.prefix (Py.slice_to 300 content) content = true
    /\ (String.length (preview content) <= 303)%nat.
Proof.
  intros Hmessages Hlast Hname.
  destruct (agent_container_lookup name Hname) as [i [Hi Hlookup]].
  exists i. split; [exact Hi |]. split; [| apply preview_spec].
  unfold show_latest_message. now rewrite Hmessages, Hlast, Hlookup.
Qed.

Lemma C5_preview_is_first_300_characters_and_an_ellipsis_witness :
  let content := repeat_char "a" 301 in
  let node_state := mkNodeState (Some [BaseMessage "ai" content]) None None None None in
  has_messages node_state = true
  /\ List.last (default [] (ns_messages node_state)) NotAMessage = BaseMessage "ai" content
  /\ In "hotel_specialist" agent_steps
  /\ exists i,
       agent_steps !! i = Some "hotel_specialist"
       /\ show_latest_message (containers_of agent_steps 0 ∅) "hotel_specialist" node_state
          = ([Within (Placeholder (agent_placeholder i))
                (Do (success ("✅ " +:+ preview content)))],
             Returns tt).
Proof.
  intros content node_state.
  assert (H1 : has_messages node_state = true) by reflexivity.
  assert (H2 : List.last (default [] (ns_messages node_state)) NotAMessage
               = BaseMessage "ai" content) by reflexivity.
  assert (H3 : In "hotel_specialist" agent_steps) by (cbn; tauto).
  split; [exact H1 |]. split; [exact H2 |]. split; [exact H3 |].
  destruct (C5_preview_is_first_300_characters_and_an_ellipsis
              "hotel_specialist" node_state "ai" content H1 H2 H3) as [i [Hi [Hshow _]]].
  exists i. split; [exact Hi | exact Hshow].
Defined.

(** C5, as it is worded, fails on a message of 301 characters: the preview
    is not the first 300 characters alone, it ends in three dots, has 303
    characters and is no prefix of the content. *)
Lemma C5_counterexample_long_message_ends_in_an_ellipsis :
  let content := repeat_char "a" 301 in
  (300 < String.length content)%nat
  /\ preview content = repeat_char "a" 300 +:+ "..."
  /\ preview content <> preview_as_specified content
  /\ String.length (preview content) = 303%nat
  /\ String.prefix (preview content) content = false.
Proof.
  cbv zeta.
  split; [vm_compute; lia |]. split; [vm_compute; reflexivity |].
  split; [| split; vm_compute; reflexivity].
  intros H. apply (f_equal String.length) in H. vm_compute in H. discriminate H.
Qed.

(* ===================================================================== *)
(** * Monitoring *)
(* ===================================================================== *)

Lemma without_monitoring_app (t1 t2 : list Event) :
  without_monitoring (t1 ++ t2) = without_monitoring t1 ++ without_monitoring t2.
Proof. apply List.filter_app. Qed.

Lemma without_monitoring_setup (env : Env) :
  without_monitoring (trace (setup_monitoring env)) = [].
Proof.
  rewrite setup_monitoring_eq. cbn [trace fst].
  destruct (configure_azure_monitor env _); [reflexivity |].
  destruct (configure_otlp_tracing env); reflexivity.
Qed.

Lemma start_workflow_with_monitoring (env : Env)
    (azure : option string -> option Py.Exception) (otlp : option Py.Exception)
    (i : Inputs) :
  start_workflow (with_monitoring env azure otlp) i = start_workflow env i.
Proof. reflexivity. Qed.

Lemma welcome_with_monitoring (env : Env)
    (azure : option string -> option Py.Exception) (otlp : option Py.Exception) :
  welcome (with_monitoring env azure otlp) = welcome env.
Proof. reflexivity. Qed.

(** C7: whatever the monitoring set-up does, return or raise, in either of
    its two calls, [setup_monitoring] returns, showing a warning with the
    text of the exception when one was raised; and the run of [main] is the
    same: it ends the same way and, the monitoring calls and the warning
    apart, makes the same calls in the same order, the build and the stream
    of the workflow among them. *)
Theorem C7_monitoring_failure_is_absorbed
    (env : Env) (azure : option string -> option Py.Exception)
    (otlp : option Py.Exception) :
  let env' := with_monitoring env azure otlp in
  let connection_string := getenv env "APPLICATION_INSIGHTS_CONNECTION_STRING" in
  setup_monitoring env'
  = (Do (configure_azure_monitor_call connection_string)
     :: match azure connection_string, otlp with
        | Some e, _ => [Do (warning ("Monitoring setup failed: " +:+ Py.exc_str e))]
        | None, Some e =>
            [Do configure_otlp_tracing_call;
             Do (warning ("Monitoring setup failed: " +:+ Py.exc_str e))]
        | None, None => [Do configure_otlp_tracing_call]
        end,
     Returns tt)
  /\ result (main env') = result (main env)
  /\ without_monitoring (trace (main env')) = without_monitoring (trace (main env))
  /\ core_calls (trace (main env')) = core_calls (trace (main env)).
Proof.
  intros env' connection_string. subst env' connection_string.
  set (env' := with_monitoring env azure otlp).
  split; [apply setup_monitoring_eq |].
  assert (Hi : inputs_of env' = inputs_of env) by reflexivity.
  assert (Hside : trace (sidebar env') = trace (sidebar env)) by reflexivity.
  pose proof (main_unfold env' (inputs_of env) (sidebar_result env)) as H'.
  pose proof (main_unfold env (inputs_of env) (sidebar_result env)) as H.
  rewrite Hside in H'.
  assert (Hwithout : forall t1 t2, without_monitoring t1 = without_monitoring t2 ->
                                   core_calls t1 = core_calls t2).
  { intros t1 t2 Heq. unfold core_calls.
    assert (Hfilter : forall t, List.filter is_core_call (map call_of t)
                                = List.filter is_core_call (map call_of (without_monitoring t))).
    { induction t as [| e t IH]; [reflexivity |].
      unfold without_monitoring in *. cbn [List.filter map].
      destruct (is_monitoring_call (call_of e)) eqn:Hmon; cbn [negb map List.filter].
      - destruct (call_of e); try discriminate Hmon; exact IH.
      - destruct (is_core_call (call_of e)); now rewrite IH. }
    now rewrite (Hfilter t1), (Hfilter t2), Heq. }
  assert (Hmain : result (main env') = result (main env)
                  /\ without_monitoring (trace (main env'))
                     = without_monitoring (trace (main env))).
  { rewrite H', H. cbn [trace result fst snd].
    destruct (in_plan_button (inputs_of env)); [| now unfold env'; rewrite welcome_with_monitoring].
    destruct (in_return_date (inputs_of env) <=? in_departure_date (inputs_of env));
      [now split |].
    rewrite !plan_trip_eq. unfold env' at 2 4. rewrite start_workflow_with_monitoring.
    cbn [trace result fst snd].
    split; [reflexivity |].
    rewrite !without_monitoring_app, !without_monitoring_setup. reflexivity. }
  destruct Hmain as [Hresult Htrace].
  split; [exact Hresult |]. split; [exact Htrace |]. now apply Hwithout.
Qed.

(* ===================================================================== *)
(** * The itinerary and the summaries *)
(* ===================================================================== *)

(** A slot counts as set when it holds a string that is not empty. *)
Lemma truthy_str_spec (o : option string) :
  Py.truthy_str o = true <-> exists s, o = Some s /\ s <> "".
Proof.
  split.
  - destruct o as [[| c s] |]; try discriminate. intros _. eexists. split; [reflexivity | discriminate].
  - intros [s [-> Hs]]. destruct s; [now contradict Hs | reflexivity].
Qed.

(** C8: showing the last state never raises.  The itinerary (in the
    expander, and as the text of the download) is shown exactly when the
    [final_itinerary] slot is set, and nothing at all is shown when it is
    not.  Each summary, under its heading, is shown exactly when the
    itinerary is shown and its own slot is set; a slot that is not set adds
    nothing. *)
Theorem C8_itinerary_and_summaries_are_shown_only_when_set
    (env : Env) (i : Inputs) (final_state : NodeState) :
  let t := trace (show_itinerary env i final_state) in
  let itinerary := default "" (ns_final_itinerary final_state) in
  result (show_itinerary env i final_state) = Returns tt
  /\ (if Py.truthy_str (ns_final_itinerary final_state) then t <> [] else t = [])
  /\ itinerary_shown t
     = (if Py.truthy_str (ns_final_itinerary final_state) then [itinerary] else [])
  /\ downloads t
     = (if Py.truthy_str (ns_final_itinerary final_state)
        then [(itinerary, "text/plain")] else [])
  /\ shown_in_column 0 t
     = (if Py.truthy_str (ns_final_itinerary final_state)
           && Py.truthy_str (ns_flight_summary final_state)
        then [info "✈️ **Flight Options**";
              write (default "" (ns_flight_summary final_state))]
        else [])
  /\ shown_in_column 1 t
     = (if Py.truthy_str (ns_final_itinerary final_state)
           && Py.truthy_str (ns_hotel_summary final_state)
        then [info "🏨 **Hotel Recommendation**";
              write (default "" (ns_hotel_summary final_state))]
        else [])
  /\ shown_in_column 2 t
     = (if Py.truthy_str (ns_final_itinerary final_state)
           && Py.truthy_str (ns_activities_summary final_state)
        then [info "🎯 **Activities & Experiences**";
              write (default "" (ns_activities_summary final_state))]
        else []).
Proof.
  intros t itinerary. subst t itinerary.
  split; [apply show_itinerary_returns |].
  unfold show_itinerary.
  destruct (Py.truthy_str (ns_final_itinerary final_state)); cbn [andb].
  - destruct (Py.truthy_str (ns_flight_summary final_state)),
             (Py.truthy_str (ns_hotel_summary final_state)),
             (Py.truthy_str (ns_activities_summary final_state));
      (split; [discriminate |]); repeat (split; [reflexivity |]); reflexivity.
  - repeat (split; [reflexivity |]); reflexivity.
Qed.

(* ===================================================================== *)
(** * Exceptions *)
(* ===================================================================== *)

(** How [main] ends: a request that passes the date check ends as the
    building and the compiling of the workflow end. *)
Lemma main_result (env : Env) :
  result (main env)
  = if in_plan_button (inputs_of env) then
      if in_return_date (inputs_of env) <=? in_departure_date (inputs_of env)
      then Returns tt
      else match build_workflow env, compile env with
           | Some e, _ => Raises e
           | None, Some e => Raises e
           | None, None => Returns tt
           end
    else result (welcome env).
Proof.
  rewrite (main_unfold env (inputs_of env) (sidebar_result env)). cbn [result snd].
  destruct (in_plan_button (inputs_of env)); [| reflexivity].
  destruct (in_return_date (inputs_of env) <=? in_departure_date (inputs_of env));
    [reflexivity |].
  now rewrite plan_trip_eq, start_workflow_eq.
Qed.

(** C9, as the script has it: the [try] statement around the stream always
    returns.  Whatever exception its body raises (from the stream, from the
    reading of a step, or from the read of [node_state] left unbound by a
    stream without steps) is shown as an error message followed by the
    advice.  Building and compiling the workflow come before that
    statement: a request that passes the date check ends with their
    exception when they raise one, and returns otherwise. *)
Theorem C9_exceptions_of_the_stream_are_caught_and_shown
    (env : Env) (i : Inputs) (cs : gmap string nat) (st : PlannerState) (cfg : Config) :
  result (guarded_run env i cs st cfg) = Returns tt
  /\ trace (guarded_run env i cs st cfg)
     = trace (run_workflow env i cs st cfg)
       ++ match result (run_workflow env i cs st cfg) with
          | Returns _ => []
          | Raises e =>
              [Do (error ("An error occurred while planning your trip: " +:+ Py.exc_str e));
               Do (info "Please check your environment configuration and try again.")]
          end
  /\ guarded_run (with_stream env (fun _ _ => ([], None))) i cs st cfg
     = ([Do (stream_call st cfg);
         Do (progress 1);
         Do (status_text "✨ Trip planning complete!");
         Do (error ("An error occurred while planning your trip: "
                    +:+ "cannot access local variable 'node_state' where it is not "
                    +:+ "associated with a value"));
         Do (info "Please check your environment configuration and try again.")],
        Returns tt)
  /\ result (main env)
     = (if in_plan_button (inputs_of env) then
          if in_return_date (inputs_of env) <=? in_departure_date (inputs_of env)
          then Returns tt
          else match build_workflow env, compile env with
               | Some e, _ => Raises e
               | None, Some e => Raises e
               | None, None => Returns tt
               end
        else result (welcome env)).
Proof.
  split; [apply guarded_run_returns |]. split; [| split; [reflexivity | apply main_result]].
  unfold guarded_run. rewrite trace_try_except.
  destruct (result (run_workflow env i cs st cfg)); reflexivity.
Qed.

(** C9, as it is worded, fails when [build_workflow()] raises: the exception
    leaves [main], and no error message is shown. *)
Lemma C9_counterexample_build_failure_leaves_main :
  let e := Py.mkException "ValueError" "AZURE_OPENAI_ENDPOINT is not set" in
  let env := with_workflow (sample_env true 739021 739026 2 [] None) (Some e) None in
  in_plan_button (inputs_of env) = true
  /\ in_departure_date (inputs_of env) < in_return_date (inputs_of env)
  /\ result (main env) = Raises e
  /\ errors_shown (trace (main env)) = []
  /\ List.last (trace (main env)) (Do (title "")) = Do build_workflow_call.
Proof.
  cbv zeta. split; [reflexivity |]. split; [reflexivity |].
  split; [vm_compute; reflexivity |]. split; vm_compute; reflexivity.
Qed.

(* ===================================================================== *)
(** * The progress bar *)
(* ===================================================================== *)

(** [min(k / 5, 1.0)] is [min(k, 5) / 5]. *)
Lemma progress_value_closed (k : Z) : (progress_value k 5 == Z.min k 5 # 5)%Q.
Proof.
  unfold progress_value, Py.min, Py.truediv.
  destruct (Qlt_le_dec 1 ((k # 1) / (5 # 1))) as [H | H];
    unfold Qlt, Qle, Qeq, Qdiv, Qmult, Qinv in *; cbn in *; lia.
Qed.

Lemma progress_value_mono (k k' : Z) :
  k <= k' -> (progress_value k 5 <= progress_value k' 5)%Q.
Proof.
  intros H. rewrite !progress_value_closed. unfold Qle. cbn. lia.
Qed.

Lemma progress_value_bounds (k : Z) :
  0 <= k -> (0 <= progress_value k 5 <= 1)%Q.
Proof.
  intros H. rewrite !progress_value_closed. unfold Qle. cbn. lia.
Qed.

Lemma progress_value_full (k : Z) : 5 <= k -> (progress_value k 5 == 1)%Q.
Proof.
  intros H. rewrite progress_value_closed. unfold Qeq. cbn. lia.
Qed.

Lemma progress_values_app (t1 t2 : list Event) :
  progress_values (t1 ++ t2) = progress_values t1 ++ progress_values t2.
Proof. apply omap_app. Qed.

(** The values the loop shows never go down and stay between 0 and 1. *)
Lemma loop_values_non_decreasing (steps : list Step) (count : Z) (x : Q) :
  (x <= progress_value (count + 1) 5)%Q ->
  non_decreasing (x :: map (fun p => progress_value (fst p) 5) (counted count steps)).
Proof.
  revert count x. induction steps as [| step rest IH]; intros count x Hx.
  - now cbn.
  - cbn [counted map fst non_decreasing]. split; [exact Hx |].
    apply IH. apply progress_value_mono. lia.
Qed.

Lemma loop_values_bounds (steps : list Step) (count : Z) :
  0 <= count ->
  Forall (fun v => (0 <= v <= 1)%Q)
    (map (fun p => progress_value (fst p) 5) (counted count steps)).
Proof.
  revert count. induction steps as [| step rest IH]; intros count Hcount.
  - apply Forall_nil_2.
  - cbn [counted map fst]. apply Forall_cons. split.
    + apply progress_value_bounds. lia.
    + apply IH. lia.
Qed.

Lemma non_decreasing_snoc (l : list Q) (x y : Q) :
  non_decreasing (x :: l) -> Forall (fun v => (v <= y)%Q) (x :: l) ->
  non_decreasing (x :: l ++ [y]).
Proof.
  revert x. induction l as [| z rest IH]; intros x Hsorted Hbound.
  - cbn. split; [| tauto]. now apply Forall_cons in Hbound as [Hx _].
  - cbn [app non_decreasing] in *. destruct Hsorted as [Hxz Hrest].
    split; [exact Hxz |]. apply IH; [exact Hrest |].
    now apply Forall_cons in Hbound as [_ Hbound].
Qed.

(** The values the [try] statement gives to the progress bar: one per step
    handled and, when the stream comes to its end, the final 1. *)
Lemma progress_values_guarded_run (env : Env) (i : Inputs) (cs : gmap string nat)
    (st : PlannerState) (cfg : Config) :
  progress_values (trace (guarded_run env i cs st cfg))
  = map (fun p => progress_value (fst p) 5) (counted 0 (handled (fst (stream env st cfg))))
    ++ (if stream_completes env st cfg then [1%Q] else []).
Proof.
  unfold guarded_run, stream_completes.
  rewrite trace_try_except, run_workflow_eq. cbn [trace result fst snd].
  assert (Hhandler : forall r : outcome unit,
             progress_values match r with
                             | Returns _ => []
                             | Raises e => trace (report_error e)
                             end = []).
  { now intros [a | e]. }
  rewrite progress_values_app, Hhandler, app_nil_r.
  change (Do (stream_call st cfg) :: ?t) with ([Do (stream_call st cfg)] ++ t).
  rewrite !progress_values_app, progress_values_stream_loop, stream_loop_result.
  cbn [step_count app]. change (progress_values [Do (stream_call st cfg)]) with (@nil Q).
  cbn [app]. f_equal.
  destruct (forallb names_a_node (fst (stream env st cfg))); cbn [andb]; [| reflexivity].
  destruct (snd (stream env st cfg)); [reflexivity |].
  destruct (node _) as [[name final_state] |]; [| reflexivity].
  change (Do (progress 1) :: Do (status_text ?s) :: ?t)
    with ([Do (progress 1); Do (status_text s)] ++ t).
  rewrite progress_values_app.
  destruct (quiet_none _ (show_itinerary_quiet env i final_state)) as [_ [_ ->]].
  reflexivity.
Qed.

(** The values a whole run of [main] gives to the progress bar. *)
Lemma progress_values_main (env : Env) :
  progress_values (trace (main env))
  = if reaches_stream env (inputs_of env)
    then 0%Q :: progress_values
                  (trace (guarded_run env (inputs_of env) (containers_of agent_steps 0 ∅)
                            (make_initial_state env (inputs_of env) (uuid4 env))
                            (make_config (uuid4 env))))
    else [].
Proof.
  rewrite (main_unfold env (inputs_of env) (sidebar_result env)). cbn [trace fst].
  unfold reaches_stream. rewrite !progress_values_app.
  destruct (quiet_none _ (sidebar_quiet env)) as [_ [_ ->]].
  destruct (in_plan_button (inputs_of env)); cbn [andb];
    [| now destruct (quiet_none _ (welcome_quiet env)) as [_ [_ ->]]].
  destruct (in_return_date (inputs_of env) <=? in_departure_date (inputs_of env));
    cbn [negb andb]; [reflexivity |].
  rewrite plan_trip_eq. cbn [trace fst]. rewrite !progress_values_app.
  destruct (quiet_none _ (setup_monitoring_quiet env)) as [_ [_ ->]].
  rewrite trip_summary_eq, start_workflow_eq. cbn [trace fst].
  rewrite !progress_values_app.
  destruct (session_has_workflow_steps env), (build_workflow env), (compile env);
    try reflexivity.
  all: rewrite stream_with_updates_eq; cbn [trace fst];
    rewrite !app_comm_cons, !progress_values_app; reflexivity.
Qed.

(** C10: in every run of [main] that reaches the stream, the progress bar
    starts at 0, shows [min(step_count / 5, 1.0)] for the count 1, 2, ... of
    each step handled and, when the stream comes to its end, 1 at last; a run
    that does not reach the stream shows no progress.  The values never go
    down and stay between 0 and 1, however many steps the stream yields;
    [min(k / 5, 1.0)] is [min(k, 5) / 5]. *)
Theorem C10_progress_is_min_of_count_over_5_and_1 (env : Env) :
  let i := inputs_of env in
  let st := make_initial_state env i (uuid4 env) in
  let cfg := make_config (uuid4 env) in
  let shown := progress_values (trace (main env)) in
  shown
  = (if reaches_stream env i
     then 0%Q :: map (fun p => Py.min (Py.truediv (fst p) 5) 1)
                   (counted 0 (handled (fst (stream env st cfg))))
               ++ (if stream_completes env st cfg then [1%Q] else [])
     else [])
  /\ non_decreasing shown
  /\ Forall (fun v => (0 <= v <= 1)%Q) shown
  /\ forall k : Z, (Py.min (Py.truediv k 5) 1 == Z.min k 5 # 5)%Q.
Proof.
  intros i st cfg shown. subst shown.
  rewrite progress_values_main. fold i st cfg.
  rewrite progress_values_guarded_run.
  split; [reflexivity |].
  split; [| split; [| exact progress_value_closed]].
  - destruct (reaches_stream env i); [| exact I].
    assert (Hloop := loop_values_non_decreasing (handled (fst (stream env st cfg))) 0 0%Q).
    destruct (stream_completes env st cfg).
    + rewrite app_comm_cons. apply non_decreasing_snoc.
      * apply Hloop. apply progress_value_bounds. lia.
      * apply Forall_cons. split; [unfold Qle; cbn; lia |].
        eapply Forall_impl; [apply loop_values_bounds; lia |].
        now intros v [_ Hv].
    + rewrite app_nil_r. apply Hloop. apply progress_value_bounds. lia.
  - destruct (reaches_stream env i); [| apply Forall_nil_2].
    apply Forall_cons. split; [unfold Qle; cbn; lia |].
    apply Forall_app. split; [apply loop_values_bounds; lia |].
    destruct (stream_completes env st cfg); [| apply Forall_nil_2].
    apply Forall_cons. split; [unfold Qle; cbn; lia | apply Forall_nil_2].
Qed.

(** On doubles, for the counts 0 to 1000: the value the interpreter computes
    is the double nearest to the rational of the model, it is at most 1, and
    it does not go down from one count to the next. *)
Lemma progress_double_is_the_rounded_progress_value :
  forallb (fun k => PrimFloat.eqb (progress_double k 5)
                      (Py.double_of_Q (Qred (progress_value k 5)))
                    && PrimFloat.leb (progress_double k 5) PrimFloat.one
                    && PrimFloat.leb (progress_double k 5) (progress_double (k + 1) 5))
          (map Z.of_nat (seq 0 1001))
  = true.
Proof. vm_compute. reflexivity. Qed.

(* ===================================================================== *)
(** * Sample runs *)
(* ===================================================================== *)

(** The status lines of a trace, in order. *)
Lemma status_lines_of_a_full_run :
  let env := with_orchestrator (sample_env true 739021 739026 2 [] None) sample_agents in
  omap (fun e => match call_of e with
                 | status_text body => Some body
                 | _ => None
                 end) (trace (main env))
  = ["🔄 Coordinator is working..."; "🔄 Flight Specialist is working...";
     "🔄 Hotel Specialist is working..."; "🔄 Activity Specialist is working...";
     "🔄 Plan Synthesizer is working..."; "✨ Trip planning complete!"]
  /\ result (main env) = Returns tt
  /\ downloads (trace (main env)) = [("summary", "text/plain")]
  /\ errors_shown (trace (main env)) = [].
Proof. cbv zeta. repeat split; vm_compute; reflexivity. Qed.

(** With a step ceiling of 2 the orchestrator yields two StepEvents and
    reports the ceiling. *)
Lemma run_under_ceiling_2 :
  let env := sample_env true 739021 739026 2 [] None in
  let st := make_initial_state env (inputs_of env) (uuid4 env) in
  let r := Orchestrator.run sample_agents st Orchestrator.stage_list 2 in
  map (fun ev => (Orchestrator.ev_stage ev, Orchestrator.ev_counter ev)) (fst r)
  = [("coordinator", 1%nat); ("flight_specialist", 2%nat)]
  /\ snd r = Orchestrator.recursion_limit_exceeded.
Proof. cbv zeta. split; vm_compute; reflexivity. Qed.

(** When the hotel specialist fails, the run still reaches the synthesizer:
    five StepEvents, an itinerary, no hotel summary, and the failure in the
    log. *)
Lemma run_with_failing_hotel_specialist :
  let env := sample_env true 739021 739026 2 [] None in
  let st := make_initial_state env (inputs_of env) (uuid4 env) in
  let r := Orchestrator.run failing_hotel_agents st Orchestrator.stage_list 10 in
  map Orchestrator.ev_counter (fst r) = [1; 2; 3; 4; 5]%nat
  /\ snd r = Orchestrator.completed
  /\ (final_state ← last (fst r);
      Some (hotel_summary (Orchestrator.ev_state final_state),
            final_itinerary (Orchestrator.ev_state final_state),
            existsb (fun m => match m with
                              | BaseMessage "failure" _ => true
                              | _ => false
                              end)
                    (messages (Orchestrator.ev_state final_state))))
     = Some (None, Some "summary", true).
Proof. cbv zeta. repeat split; vm_compute; reflexivity. Qed.

(** A second assignment to a slot that is set is an OrchestratorFault: the
    run of a list that names the flight specialist twice is aborted. *)
Lemma run_with_a_repeated_stage_faults :
  let env := sample_env true 739021 739026 2 [] None in
  let st := make_initial_state env (inputs_of env) (uuid4 env) in
  let r := Orchestrator.run sample_agents st
             [Orchestrator.flight_specialist; Orchestrator.flight_specialist] 10 in
  map Orchestrator.ev_counter (fst r) = [1%nat]
  /\ snd r = Orchestrator.failed "attempt to overwrite an already-set slot".
Proof. cbv zeta. split; vm_compute; reflexivity. Qed.

(** A stream of seven steps: the progress stays at 1 from the fifth on. *)
Lemma progress_of_seven_steps :
  let node_state := mkNodeState None None None None None in
  let steps := repeat [("coordinator", node_state)] 7 in
  let env := sample_env true 739021 739026 2 steps None in
  map Qred (progress_values (trace (main env)))
  = [0; 1 # 5; 2 # 5; 3 # 5; 4 # 5; 1; 1; 1; 1]%Q.
Proof. cbv zeta. vm_compute. reflexivity. Qed.

(** A stream that yields nothing: the page reports completion, then the
    error of the unbound variable. *)
Lemma run_of_an_empty_stream :
  let env := sample_env true 739021 739026 2 [] None in
  result (main env) = Returns tt
  /\ errors_shown (trace (main env))
     = ["An error occurred while planning your trip: cannot access local variable 'node_state' where it is not associated with a value"]
  /\ map Qred (progress_values (trace (main env))) = [0; 1]%Q.
Proof. cbv zeta. repeat split; vm_compute; reflexivity. Qed.

(* ===================================================================== *)
(** * Agent names for display *)
(* ===================================================================== *)

Lemma ascii_cases (P : ascii -> Prop) :
  (forall b0 b1 b2 b3 b4 b5 b6 b7, P (Ascii b0 b1 b2 b3 b4 b5 b6 b7)) -> forall c, P c.
Proof. intros H [b0 b1 b2 b3 b4 b5 b6 b7]. apply H. Qed.

Lemma to_upper_facts (c : ascii) :
  Py.to_upper (Py.to_upper c) = Py.to_upper c
  /\ Py.is_cased (Py.to_upper c) = Py.is_cased c
  /\ (Ascii.eqb (Py.to_upper c) "_" = Ascii.eqb c "_").
Proof.
  revert c. apply ascii_cases.
  intros [] [] [] [] [] [] [] []; vm_compute; repeat split.
Qed.

Lemma to_lower_facts (c : ascii) :
  Py.to_lower (Py.to_lower c) = Py.to_lower c
  /\ Py.is_cased (Py.to_lower c) = Py.is_cased c
  /\ (Ascii.eqb (Py.to_lower c) "_" = Ascii.eqb c "_").
Proof.
  revert c. apply ascii_cases.
  intros [] [] [] [] [] [] [] []; vm_compute; repeat split.
Qed.

Lemma title_from_idempotent (b : bool) (s : string) :
  Py.title_from b (Py.title_from b s) = Py.title_from b s.
Proof.
  revert b. induction s as [| c s IH]; intros b; [reflexivity |].
  cbn [Py.title_from].
  destruct b.
  - destruct (to_lower_facts c) as [-> [-> _]]. now rewrite IH.
  - destruct (to_upper_facts c) as [-> [-> _]]. now rewrite IH.
Qed.

Lemma title_from_length (b : bool) (s : string) :
  String.length (Py.title_from b s) = String.length s.
Proof.
  revert b. induction s as [| c s IH]; intros b; [reflexivity |].
  cbn [Py.title_from String.length]. now rewrite IH.
Qed.

Lemma replace_char_length (old new : ascii) (s : string) :
  String.length (Py.replace_char old new s) = String.length s.
Proof. induction s as [| c s IH]; [reflexivity |]. cbn. now rewrite IH. Qed.

Lemma title_from_underscores (b : bool) (s : string) :
  contains_char "_" (Py.title_from b s) = contains_char "_" s.
Proof.
  revert b. induction s as [| c s IH]; intros b; [reflexivity |].
  cbn [Py.title_from contains_char]. rewrite IH.
  destruct b.
  - now destruct (to_lower_facts c) as [_ [_ ->]].
  - now destruct (to_upper_facts c) as [_ [_ ->]].
Qed.

Lemma replace_char_removes (s : string) :
  contains_char "_" (Py.replace_char "_" " " s) = false.
Proof.
  induction s as [| c s IH]; [reflexivity |].
  cbn [Py.replace_char contains_char]. rewrite IH.
  destruct (Ascii.eqb_spec c "_") as [-> | Hne]; [reflexivity |].
  cbn. now apply Ascii.eqb_neq in Hne as ->.
Qed.

Lemma replace_char_absent (s : string) :
  contains_char "_" s = false -> Py.replace_char "_" " " s = s.
Proof.
  induction s as [| c s IH]; [reflexivity |].
  cbn [Py.replace_char contains_char]. intros H.
  apply orb_false_iff in H as [Hc Hs]. now rewrite Hc, IH.
Qed.

(** X1: the display name of an agent with an ASCII name has as many
    characters as the name and no underscore is left in it. *)
Theorem X1_format_agent_name_keeps_length_and_drops_underscores (agent_name : string) :
  isascii agent_name = true ->
  String.length (format_agent_name agent_name) = String.length agent_name
  /\ contains_char "_" (format_agent_name agent_name) = false.
Proof.
  intros _. unfold format_agent_name, Py.title. split.
  - now rewrite title_from_length, replace_char_length.
  - now rewrite title_from_underscores, replace_char_removes.
Qed.

Lemma X1_format_agent_name_keeps_length_and_drops_underscores_witness :
  isascii "web_search_agent_2" = true
  /\ format_agent_name "web_search_agent_2" = "Web Search Agent 2"
  /\ String.length (format_agent_name "web_search_agent_2") = 18%nat
  /\ contains_char "_" (format_agent_name "web_search_agent_2") = false.
Proof.
  assert (H : isascii "web_search_agent_2" = true) by reflexivity.
  split; [exact H |]. split; [reflexivity |].
  exact (X1_format_agent_name_keeps_length_and_drops_underscores "web_search_agent_2" H).
Defined.

(** X2: formatting the display name of an ASCII name again leaves it as it
    is. *)
Theorem X2_format_agent_name_is_idempotent (agent_name : string) :
  isascii agent_name = true ->
  format_agent_name (format_agent_name agent_name) = format_agent_name agent_name.
Proof.
  intros _. unfold format_agent_name, Py.title.
  rewrite (replace_char_absent (Py.title_from false _)).
  - apply title_from_idempotent.
  - now rewrite title_from_underscores, replace_char_removes.
Qed.

Lemma X2_format_agent_name_is_idempotent_witness :
  isascii "plan_synthesizer" = true
  /\ format_agent_name (format_agent_name "plan_synthesizer")
     = format_agent_name "plan_synthesizer".
Proof.
  assert (H : isascii "plan_synthesizer" = true) by reflexivity.
  split; [exact H |].
  exact (X2_format_agent_name_is_idempotent "plan_synthesizer" H).
Defined.

(* ===================================================================== *)
(** * The city lists *)
(* ===================================================================== *)

(** X3: the destinations offered are the keys of [DESTINATIONS] in title
    case, in their order and without merging duplicates, followed by the four
    extra cities as they are written; there are [len(DESTINATIONS) + 4] of
    them.  Both lists have a first option, the one the select boxes start
    with. *)
Theorem X3_city_suggestions (env : Env) :
  snd (get_city_suggestions env)
  = map (fun item => Py.title (fst item)) (DESTINATIONS env)
    ++ ["Barcelona"; "Amsterdam"; "Vienna"; "Prague"]
  /\ length (snd (get_city_suggestions env)) = (length (DESTINATIONS env) + 4)%nat
  /\ fst (get_city_suggestions env) !! 0%nat = Some "Seattle"
  /\ is_Some (snd (get_city_suggestions env) !! 0%nat).
Proof.
  unfold get_city_suggestions. cbn [fst snd].
  rewrite map_app, map_map. split; [reflexivity |]. split; [| split; [reflexivity |]].
  - rewrite length_app, length_map. reflexivity.
  - destruct (DESTINATIONS env); cbn; eauto.
Qed.

(* ===================================================================== *)
(** * The welcome page *)
(* ===================================================================== *)

Ltac display_list :=
  repeat (apply Forall_cons; split; [reflexivity |]); apply Forall_nil_2.

Lemma destination_columns_text (items : list (string * DestInfo)) (i : nat) :
  Forall text_only (trace (destination_columns items i)).
Proof.
  revert i. induction items as [| [dest info_] rest IH]; intros i.
  - display_list.
  - cbn [destination_columns]. rewrite trace_bind, trace_within, result_within.
    apply Forall_app. split.
    + unfold getitem.
      destruct (highlights info_ !! 0%nat); [| display_list].
      destruct (highlights info_ !! 1%nat); [| display_list].
      destruct (highlights info_ !! 2%nat); display_list.
    + destruct (result _); [apply IH | display_list].
Qed.

Lemma welcome_text_only (env : Env) : Forall text_only (trace (welcome env)).
Proof.
  unfold welcome. rewrite !trace_bind. cbn [emit trace result fst snd].
  repeat (apply Forall_app; split); try display_list.
  apply destination_columns_text.
Qed.

Lemma text_only_is_display_only (t : list Event) :
  Forall text_only t -> Forall display_only t /\ errors_shown t = [].
Proof.
  induction 1 as [| e rest He _ [IH1 IH2]]; [split; [apply Forall_nil_2 | reflexivity] |].
  unfold text_only, display_only, errors_shown in *. cbn [omap list_omap].
  destruct (call_of e) eqn:Hcall; try discriminate He;
    (split; [apply Forall_cons; split; [now rewrite Hcall | exact IH1] | exact IH2]).
Qed.

Lemma display_only_no_core_calls (t : list Event) :
  Forall display_only t -> core_calls t = [] /\ without_monitoring t = t.
Proof.
  intros H. split.
  - induction H as [| e rest He _ IH]; [reflexivity |].
    unfold core_calls, display_only in *. cbn [map List.filter].
    destruct (call_of e); try discriminate He; exact IH.
  - induction H as [| e rest He _ IH]; [reflexivity |].
    unfold without_monitoring, display_only in *. cbn [List.filter].
    destruct (call_of e); try discriminate He; cbn; now rewrite IH.
Qed.

Lemma destination_columns_result (items : list (string * DestInfo)) (i : nat) :
  result (destination_columns items i)
  = if forallb has_three_highlights items then Returns tt else Raises IndexError.
Proof.
  revert i. induction items as [| [dest info_] rest IH]; intros i; [reflexivity |].
  cbn [destination_columns forallb]. rewrite result_bind, result_within.
  unfold has_three_highlights at 1. cbn [snd].
  destruct (highlights info_) as [| h0 [| h1 [| h2 more]]]; try reflexivity.
  cbn. apply IH.
Qed.

Lemma destination_columns_cards (items : list (string * DestInfo)) (i : nat) :
  map fst (cards (trace (destination_columns items i))) = seq i (cards_shown items).
Proof.
  revert i. induction items as [| [dest info_] rest IH]; intros i; [reflexivity |].
  cbn [destination_columns cards_shown]. rewrite trace_bind, result_within, trace_within.
  unfold has_three_highlights. cbn [snd].
  destruct (highlights info_) as [| h0 [| h1 [| h2 more]]]; try reflexivity.
  cbn -[cards destination_columns]. unfold cards in *. cbn [omap list_omap map fst].
  now rewrite IH.
Qed.

Lemma cards_shown_bound (items : list (string * DestInfo)) :
  if forallb has_three_highlights items
  then cards_shown items = length items
  else (cards_shown items < length items)%nat.
Proof.
  induction items as [| item rest IH]; [reflexivity |].
  cbn [forallb cards_shown length].
  destruct (has_three_highlights item); cbn [andb]; [| lia].
  destruct (forallb has_three_highlights rest); lia.
Qed.

Lemma core_calls_app (t1 t2 : list Event) :
  core_calls (t1 ++ t2) = core_calls t1 ++ core_calls t2.
Proof. unfold core_calls. now rewrite map_app, List.filter_app. Qed.

Lemma errors_shown_app (t1 t2 : list Event) :
  errors_shown (t1 ++ t2) = errors_shown t1 ++ errors_shown t2.
Proof. apply omap_app. Qed.

(** X4: in a run that passes the sidebar (the departure is at most 360 days
    ahead, so that the return date input accepts its start value), until the
    button is pressed [main] shows the sidebar and the welcome page and
    nothing else: after the sidebar it only writes text, headings and
    columns.  It shows no error, also when the return is not after the
    departure, sets up no monitoring and does not touch the workflow. *)
Theorem X4_without_the_button_only_the_welcome_page (env : Env) :
  in_departure_date (inputs_of env) <= now_date env + 360 ->
  in_plan_button (inputs_of env) = false ->
  trace (main env)
  = [Do (set_page_config "🧭 AI Travel Planner" "✈️" "wide" "expanded");
     Do (title "🧭 AI Multi-Agent Travel Planner");
     Do (markdown "Plan your perfect trip with AI-powered travel specialists!")]
    ++ map (Within Sidebar) (trace (sidebar env))
    ++ trace (welcome env)
  /\ Forall text_only (trace (welcome env))
  /\ core_calls (trace (main env)) = []
  /\ errors_shown (trace (main env)) = []
  /\ without_monitoring (trace (main env)) = trace (main env).
Proof.
  intros _ Hbutton.
  pose proof (main_unfold env (inputs_of env) (sidebar_result env)) as Hmain.
  rewrite Hbutton in Hmain.
  destruct (text_only_is_display_only _ (welcome_text_only env)) as [Hdisplay Herrors].
  destruct (display_only_no_core_calls _ Hdisplay) as [Hcore Hmonitoring].
  rewrite Hmain. cbn [trace fst].
  split; [reflexivity |]. split; [apply welcome_text_only |].
  rewrite !core_calls_app, !errors_shown_app, !without_monitoring_app.
  rewrite Hcore, Herrors, Hmonitoring.
  split; [reflexivity |]. split; reflexivity.
Qed.

Lemma X4_without_the_button_only_the_welcome_page_witness :
  let env := sample_env false 739021 739021 2 [] None in
  in_departure_date (inputs_of env) <= now_date env + 360
  /\ in_plan_button (inputs_of env) = false
  /\ in_return_date (inputs_of env) <= in_departure_date (inputs_of env)
  /\ errors_shown (trace (main env)) = []
  /\ core_calls (trace (main env)) = [].
Proof.
  intros env.
  assert (Hdate : in_departure_date (inputs_of env) <= now_date env + 360) by (cbn; lia).
  assert (H : in_plan_button (inputs_of env) = false) by reflexivity.
  split; [exact Hdate |]. split; [exact H |]. split; [cbn; lia |].
  destruct (X4_without_the_button_only_the_welcome_page env Hdate H)
    as [_ [_ [Hcore [Herrors _]]]].
  split; [exact Herrors | exact Hcore].
Defined.

(** X5: in a run that passes the sidebar (the departure is at most 360 days
    ahead) without the button pressed, the welcome page reads three
    highlights of each of the first three destinations: when one of them has
    fewer, the page, and [main] with it, ends with an [IndexError];
    otherwise [main] returns.  Destinations after the third are not read. *)
Theorem X5_welcome_needs_three_highlights (env : Env) :
  in_departure_date (inputs_of env) <= now_date env + 360 ->
  in_plan_button (inputs_of env) = false ->
  result (main env)
  = if forallb has_three_highlights (take 3 (DESTINATIONS env))
    then Returns tt
    else Raises IndexError.
Proof.
  intros _ Hbutton.
  rewrite main_result, Hbutton.
  unfold welcome. rewrite !result_bind. cbn [emit result snd].
  apply destination_columns_result.
Qed.

Lemma X5_welcome_needs_three_highlights_witness :
  let env :=
    mkEnv 739000 (fun _ => "") (fun _ => "")
      [("paris", mkDestInfo "France" ["Louvre"; "Seine"; "Montmartre"]);
       ("oslo", mkDestInfo "Norway" ["Fjord"; "Opera"])]
      (fun _ _ _ => "") (fun _ value _ _ => value) (fun _ _ _ value => value)
      (fun _ value => value) (fun _ => false) (fun _ => None) (fun _ => None) None
      false "" None None (fun _ _ => ([], None)) in
  in_departure_date (inputs_of env) <= now_date env + 360
  /\ in_plan_button (inputs_of env) = false
  /\ result (main env) = Raises IndexError
  /\ cards (trace (main env))
     = [(0%nat,
         nl +:+ indent16 +:+ "**Paris, France**" +:+ nl +:+ indent16 +:+ "- Louvre"
         +:+ nl +:+ indent16 +:+ "- Seine" +:+ nl +:+ indent16 +:+ "- Montmartre"
         +:+ nl +:+ indent16)].
Proof.
  intros env.
  assert (Hdate : in_departure_date (inputs_of env) <= now_date env + 360) by (cbn; lia).
  assert (H : in_plan_button (inputs_of env) = false) by reflexivity.
  split; [exact Hdate |]. split; [exact H |]. split; [| vm_compute; reflexivity].
  exact (X5_welcome_needs_three_highlights env Hdate H).
Defined.

(** X6: the welcome page shows one card per destination, in the columns 0,
    1, 2 in this order, for the first three destinations up to the first one
    with fewer than three highlights: never more than three cards, so every
    card has its column. *)
Theorem X6_welcome_cards_fill_the_three_columns (env : Env) :
  let shown := cards_shown (take 3 (DESTINATIONS env)) in
  map fst (cards (trace (welcome env))) = seq 0 shown
  /\ (shown <= 3)%nat
  /\ (if forallb has_three_highlights (take 3 (DESTINATIONS env))
      then shown = Nat.min 3 (length (DESTINATIONS env))
      else (shown < Nat.min 3 (length (DESTINATIONS env)))%nat).
Proof.
  intros shown. subst shown.
  pose proof (cards_shown_bound (take 3 (DESTINATIONS env))) as Hbound.
  rewrite length_take in Hbound.
  split; [| split].
  - unfold welcome. rewrite !trace_bind. cbn [emit trace result fst snd].
    unfold cards. rewrite !omap_app. cbn [omap list_omap app].
    apply destination_columns_cards.
  - destruct (forallb has_three_highlights (take 3 (DESTINATIONS env))); lia.
  - exact Hbound.
Qed.

(* ===================================================================== *)
(** * The order of the calls into the workflow *)
(* ===================================================================== *)

Lemma show_latest_message_display (cs : gmap string nat) (name : string)
    (node_state : NodeState) :
  Forall display_only (trace (show_latest_message cs name node_state)).
Proof.
  unfold show_latest_message.
  destruct (has_messages node_state); [| display_list].
  destruct (List.last _ _); [| display_list].
  destruct (cs !! name); display_list.
Qed.

Lemma stream_loop_display (cs : gmap string nat) (total : Z) (steps : list Step)
    (vars : LoopVars) :
  Forall display_only (trace (stream_loop cs total steps vars)).
Proof.
  revert vars. induction steps as [| step rest IH]; intros vars.
  - display_list.
  - cbn [stream_loop]. rewrite trace_bind.
    destruct step as [| [name node_state] more]; [display_list |].
    rewrite loop_body_eq. cbn [trace result fst snd].
    repeat (apply Forall_app; split); [display_list | | apply IH].
    apply show_latest_message_display.
Qed.

Lemma show_itinerary_display (env : Env) (i : Inputs) (final_state : NodeState) :
  Forall display_only (trace (show_itinerary env i final_state)).
Proof.
  unfold show_itinerary.
  destruct (Py.truthy_str (ns_final_itinerary final_state)); [| display_list].
  destruct (Py.truthy_str (ns_flight_summary final_state)),
           (Py.truthy_str (ns_hotel_summary final_state)),
           (Py.truthy_str (ns_activities_summary final_state)); display_list.
Qed.

(** After the call of [app.stream], the [try] statement only shows things. *)
Lemma guarded_run_display (env : Env) (i : Inputs) (cs : gmap string nat)
    (st : PlannerState) (cfg : Config) :
  exists t, trace (guarded_run env i cs st cfg) = Do (stream_call st cfg) :: t
            /\ Forall display_only t.
Proof.
  unfold guarded_run. rewrite trace_try_except, run_workflow_eq.
  cbn [trace result fst snd]. eexists. split; [rewrite <- app_comm_cons; reflexivity |].
  repeat (apply Forall_app; split).
  - apply stream_loop_display.
  - destruct (result (stream_loop _ _ _ _)) as [vars | e]; [| display_list].
    destruct (snd (stream env st cfg)); [display_list |].
    apply Forall_app; split; [display_list |].
    destruct (node vars) as [[name final_state] |]; [apply show_itinerary_display | display_list].
  - destruct (result (stream_loop _ _ _ _)) as [vars | e]; [| display_list].
    destruct (snd (stream env st cfg)); [display_list |].
    destruct (node vars); display_list.
Qed.

(** X7: [main] calls into the workflow in one order only: it builds, then
    compiles, then streams, and stops at the first of these that fails.  It
    never compiles a workflow that was not built, never streams one that was
    not compiled, and does none of this before the button is pressed and the
    dates have passed the check. *)
Theorem X7_build_then_compile_then_stream (env : Env) :
  core_calls (trace (main env))
  = if in_plan_button (inputs_of env)
       && negb (in_return_date (inputs_of env) <=? in_departure_date (inputs_of env))
    then workflow_calls
           (build_workflow env) (compile env)
           (make_initial_state env (inputs_of env) (uuid4 env)) (make_config (uuid4 env))
    else [].
Proof.
  rewrite (main_unfold env (inputs_of env) (sidebar_result env)). cbn [trace fst].
  rewrite !core_calls_app.
  change (core_calls (map (Within Sidebar) (trace (sidebar env)))) with (@nil Call).
  cbn [app core_calls map List.filter call_of is_core_call].
  destruct (in_plan_button (inputs_of env)); cbn [andb].
  - destruct (in_return_date (inputs_of env) <=? in_departure_date (inputs_of env));
      cbn [negb]; [reflexivity |].
    rewrite plan_trip_eq. cbn [trace fst]. rewrite !core_calls_app.
    rewrite trip_summary_eq, setup_monitoring_eq, start_workflow_eq. cbn [trace fst].
    rewrite core_calls_app.
    assert (Hmon : forall l, core_calls
                     (Do (configure_azure_monitor_call
                            (getenv env "APPLICATION_INSIGHTS_CONNECTION_STRING"))
                      :: match configure_azure_monitor env
                                 (getenv env "APPLICATION_INSIGHTS_CONNECTION_STRING"),
                               configure_otlp_tracing env with
                         | Some e, _ =>
                             [Do (warning ("Monitoring setup failed: " +:+ Py.exc_str e))]
                         | None, Some e =>
                             [Do configure_otlp_tracing_call;
                              Do (warning ("Monitoring setup failed: " +:+ Py.exc_str e))]
                         | None, None => [Do configure_otlp_tracing_call]
                         end) ++ l = l).
    { intros l. destruct (configure_azure_monitor env _); [reflexivity |].
      destruct (configure_otlp_tracing env); reflexivity. }
    change (core_calls [Do (columns 3); _; _; _; _]) with (@nil Call).
    cbn [app]. rewrite Hmon.
    unfold workflow_calls.
    destruct (session_has_workflow_steps env), (build_workflow env), (compile env);
      try reflexivity.
    all: rewrite stream_with_updates_eq; cbn [trace fst];
      destruct (guarded_run_display env (inputs_of env) (containers_of agent_steps 0 ∅)
                  (make_initial_state env (inputs_of env) (uuid4 env))
                  (make_config (uuid4 env))) as [t [-> Hdisplay]];
      destruct (display_only_no_core_calls t Hdisplay) as [Hcore _];
      rewrite !app_comm_cons, !core_calls_app;
      change (Do (stream_call ?a ?b) :: t) with ([Do (stream_call a b)] ++ t);
      rewrite !core_calls_app, Hcore; reflexivity.
  - destruct (text_only_is_display_only _ (welcome_text_only env)) as [Hdisplay _].
    now destruct (display_only_no_core_calls _ Hdisplay) as [-> _].
Qed.

(* ===================================================================== *)
(** * The dates *)
(* ===================================================================== *)

(** X8: when the date inputs keep their value within the bounds they are
    given, the departure lies between today and today + 365 days and the
    return between the departure and today + 365 days.  The date check then
    turns down exactly the requests whose return is the departure day, and a
    request that reaches the workflow has
    today <= departure < return <= today + 365. *)
Theorem X8_dates_within_a_year_and_in_order (env : Env) :
  (forall label value min_value max_value,
      min_value <= max_value ->
      min_value <= date_input env label value min_value max_value <= max_value) ->
  let i := inputs_of env in
  now_date env <= in_departure_date i <= now_date env + 365
  /\ in_departure_date i <= in_return_date i <= now_date env + 365
  /\ (in_return_date i <=? in_departure_date i) = (in_return_date i =? in_departure_date i)
  /\ (if reaches_stream env i
      then now_date env <= in_departure_date i < in_return_date i
           /\ in_return_date i <= now_date env + 365
      else True).
Proof.
  intros Hwidget i.
  assert (Hdep : now_date env <= in_departure_date i <= now_date env + 365).
  { apply Hwidget. lia. }
  assert (Hret : in_departure_date i <= in_return_date i <= now_date env + 365).
  { apply (Hwidget "Return Date"). apply Hdep. }
  split; [exact Hdep |]. split; [exact Hret |]. split.
  - destruct (Z.leb_spec (in_return_date i) (in_departure_date i)),
             (Z.eqb_spec (in_return_date i) (in_departure_date i)); try reflexivity; lia.
  - unfold reaches_stream.
    destruct (in_plan_button i); cbn [andb]; [| exact I].
    destruct (Z.leb_spec (in_return_date i) (in_departure_date i)); cbn [negb andb];
      [exact I |].
    destruct (build_workflow env), (compile env); try exact I. lia.
Qed.

Lemma X8_dates_within_a_year_and_in_order_witness :
  let env := clamping_env true 738000 740000 [] None in
  (forall label value min_value max_value,
      min_value <= max_value ->
      min_value <= date_input env label value min_value max_value <= max_value)
  /\ in_departure_date (inputs_of env) = 739000
  /\ in_return_date (inputs_of env) = 739365
  /\ reaches_stream env (inputs_of env) = true
  /\ now_date env <= in_departure_date (inputs_of env) <= now_date env + 365.
Proof.
  intros env.
  assert (Hwidget : forall label value min_value max_value,
             min_value <= max_value ->
             min_value <= date_input env label value min_value max_value <= max_value).
  { intros label value lo hi Hle. cbn.
    destruct (String.eqb label "Departure Date"); lia. }
  split; [exact Hwidget |]. split; [reflexivity |]. split; [reflexivity |].
  split; [reflexivity |].
  exact (proj1 (X8_dates_within_a_year_and_in_order env Hwidget)).
Defined.

(** X9: the return date input is given the departure as its minimum,
    today + 365 days as its maximum and the departure + 5 days as its start
    value: the start value is within these bounds exactly when the departure
    is at most 360 days ahead. *)
Theorem X9_return_date_start_value (env : Env) :
  let departure_date := in_departure_date (inputs_of env) in
  In (Within Sidebar
        (Do (date_input_call "Return Date" (departure_date + 5) departure_date
               (now_date env + 365))))
     (trace (main env))
  /\ omap (fun e => match call_of e with
                    | date_input_call "Return Date" value min_value max_value =>
                        Some ((min_value <=? value) && (value <=? max_value))
                    | _ => None
                    end) (trace (main env))
     = [departure_date <=? now_date env + 360].
Proof.
  intros departure_date.
  rewrite (main_unfold env (inputs_of env) (sidebar_result env)). cbn [trace fst].
  split.
  - apply in_or_app. right. apply in_or_app. left. cbn. tauto.
  - rewrite !omap_app.
    assert (Hquiet : forall t, Forall display_only t ->
               omap (fun e => match call_of e with
                              | date_input_call "Return Date" value min_value max_value =>
                                  Some ((min_value <=? value) && (value <=? max_value))
                              | _ => None
                              end) t = []).
    { induction 1 as [| e rest He _ IH]; [reflexivity |].
      unfold display_only in He. cbn [omap list_omap].
      destruct (call_of e); try discriminate He; exact IH. }
    assert (Hrest : omap (fun e => match call_of e with
                              | date_input_call "Return Date" value min_value max_value =>
                                  Some ((min_value <=? value) && (value <=? max_value))
                              | _ => None
                              end)
                      (trace (if in_plan_button (inputs_of env) then
                                if in_return_date (inputs_of env)
                                   <=? in_departure_date (inputs_of env)
                                then emit (error "Return date must be after departure date!")
                                else plan_trip env (inputs_of env)
                              else welcome env)) = []).
    { destruct (in_plan_button (inputs_of env)).
      - destruct (_ <=? _); [reflexivity |].
        rewrite plan_trip_eq, trip_summary_eq, setup_monitoring_eq, start_workflow_eq.
        cbn [trace fst]. rewrite !omap_app.
        destruct (configure_azure_monitor env _), (configure_otlp_tracing env),
                 (session_has_workflow_steps env), (build_workflow env), (compile env);
          try reflexivity.
        all: rewrite stream_with_updates_eq; cbn [trace fst];
          destruct (guarded_run_display env (inputs_of env) (containers_of agent_steps 0 ∅)
                      (make_initial_state env (inputs_of env) (uuid4 env))
                      (make_config (uuid4 env))) as [t [-> Hdisplay]];
          cbn [app omap list_omap call_of agent_steps rows_of];
          now rewrite (Hquiet t Hdisplay).
      - apply Hquiet.
        now destruct (text_only_is_display_only _ (welcome_text_only env)). }
    rewrite Hrest. cbn. fold departure_date.
    f_equal.
    destruct (Z.leb_spec departure_date (departure_date + 5)),
             (Z.leb_spec (departure_date + 5) (now_date env + 365)),
             (Z.leb_spec departure_date (now_date env + 360)); try reflexivity; lia.
Qed.

(* ===================================================================== *)
(** * The start state and the configuration *)
(* ===================================================================== *)

(** X10: whenever [main] calls [app.stream], one session identifier ties the
    call together: it is the session of the start state, the thread of the
    configuration and both entries of its metadata.  The start state carries
    the request sentence twice, as [user_request] and as its only message, a
    human one; its four summary slots are empty, its agent marker is "start"
    and its traveler count, origin and destination are those of the
    sidebar. *)
Theorem X10_one_session_id_and_a_fresh_start_state (env : Env) :
  Forall (fun call =>
            let st := fst call in
            let cfg := snd call in
            session_id st = uuid4 env
            /\ configurable_thread_id cfg = session_id st
            /\ metadata_session_id cfg = session_id st
            /\ metadata_thread_id cfg = session_id st
            /\ messages st = [BaseMessage "human" (user_request st)]
            /\ (flight_summary st, hotel_summary st, activities_summary st,
                final_itinerary st) = (None, None, None, None)
            /\ current_agent st = "start"
            /\ (origin st, destination st, travellers st)
               = (in_origin (inputs_of env), in_destination (inputs_of env),
                  in_travelers (inputs_of env)))
         (stream_calls (trace (main env))).
Proof.
  destruct (main_rows_and_stream_calls env (inputs_of env) (sidebar_result env)) as [_ ->].
  destruct (reaches_stream env (inputs_of env)); [| apply Forall_nil_2].
  apply Forall_cons. split; [| apply Forall_nil_2].
  cbn. repeat split.
Qed.

(* ===================================================================== *)
(** * What a run of the stream shows *)
(* ===================================================================== *)

(** The loop shows the same for a stream as for the steps it handles. *)
Lemma stream_loop_trace_handled (cs : gmap string nat) (total : Z) (steps : list Step)
    (vars : LoopVars) :
  trace (stream_loop cs total steps vars) = trace (stream_loop cs total (handled steps) vars).
Proof.
  revert vars. induction steps as [| step rest IH]; intros vars; [reflexivity |].
  destruct step as [| [name node_state] more]; [reflexivity |].
  cbn [handled stream_loop]. rewrite !trace_bind, loop_body_eq.
  cbn [trace result fst snd]. now rewrite IH.
Qed.

Lemma status_lines_app (t1 t2 : list Event) :
  status_lines (t1 ++ t2) = status_lines t1 ++ status_lines t2.
Proof. apply omap_app. Qed.

Lemma itinerary_shown_app (t1 t2 : list Event) :
  itinerary_shown (t1 ++ t2) = itinerary_shown t1 ++ itinerary_shown t2.
Proof. apply omap_app. Qed.

Lemma show_latest_message_shows (cs : gmap string nat) (name : string)
    (node_state : NodeState) :
  status_lines (trace (show_latest_message cs name node_state)) = []
  /\ errors_shown (trace (show_latest_message cs name node_state)) = []
  /\ itinerary_shown (trace (show_latest_message cs name node_state)) = [].
Proof.
  unfold show_latest_message.
  destruct (has_messages node_state); [| now repeat split].
  destruct (List.last _ _); [| now repeat split].
  destruct (cs !! name); now repeat split.
Qed.

Lemma stream_loop_shows (cs : gmap string nat) (total : Z) (steps : list Step)
    (vars : LoopVars) :
  status_lines (trace (stream_loop cs total steps vars))
  = map (fun name => "🔄 " +:+ format_agent_name name +:+ " is working...")
        (step_names (handled steps))
  /\ errors_shown (trace (stream_loop cs total steps vars)) = []
  /\ itinerary_shown (trace (stream_loop cs total steps vars)) = [].
Proof.
  revert vars. induction steps as [| step rest IH]; intros vars; [now repeat split |].
  cbn [stream_loop]. rewrite trace_bind.
  destruct step as [| [name node_state] more]; [now repeat split |].
  rewrite loop_body_eq. cbn [trace result fst snd].
  rewrite !status_lines_app, !errors_shown_app, !itinerary_shown_app.
  destruct (show_latest_message_shows cs name node_state) as [-> [-> ->]].
  destruct (IH (mkLoopVars (step_count vars + 1) (Some (name, node_state))))
    as [-> [-> ->]].
  now repeat split.
Qed.

Lemma show_itinerary_shows (env : Env) (i : Inputs) (final_state : NodeState) :
  status_lines (trace (show_itinerary env i final_state)) = []
  /\ errors_shown (trace (show_itinerary env i final_state)) = []
  /\ itinerary_shown (trace (show_itinerary env i final_state))
     = if Py.truthy_str (ns_final_itinerary final_state)
       then [default "" (ns_final_itinerary final_state)]
       else [].
Proof.
  unfold show_itinerary.
  destruct (Py.truthy_str (ns_final_itinerary final_state)); [| now repeat split].
  destruct (Py.truthy_str (ns_flight_summary final_state)),
           (Py.truthy_str (ns_hotel_summary final_state)),
           (Py.truthy_str (ns_activities_summary final_state)); now repeat split.
Qed.

(** After a stream with a step, the loop holds the node of the last one. *)
Lemma node_vars_after (steps : list Step) (vars : LoopVars) :
  node (vars_after steps vars)
  = match steps with
    | [] => node vars
    | _ :: _ => last_node steps
    end.
Proof.
  revert vars. induction steps as [| step rest IH]; intros vars; [reflexivity |].
  cbn [vars_after]. rewrite IH.
  destruct rest as [| step' rest']; [reflexivity |].
  unfold last_node. now rewrite last_cons_cons.
Qed.

Lemma last_node_named (steps : list Step) :
  forallb names_a_node steps = true -> steps <> [] -> is_Some (last_node steps).
Proof.
  induction steps as [| step rest IH]; intros Hnamed Hne; [now contradict Hne |].
  cbn in Hnamed. apply andb_true_iff in Hnamed as [Hstep Hrest].
  destruct rest as [| step' rest'].
  - destruct step; [discriminate Hstep | cbn; eauto].
  - unfold last_node in *. rewrite last_cons_cons. now apply IH.
Qed.

(** The status lines, the error and the itinerary of the [try] statement. *)
Lemma guarded_run_shows (env : Env) (i : Inputs) (cs : gmap string nat)
    (st : PlannerState) (cfg : Config) :
  status_lines (trace (guarded_run env i cs st cfg))
  = map (fun name => "🔄 " +:+ format_agent_name name +:+ " is working...")
        (step_names (handled (fst (stream env st cfg))))
    ++ (if stream_completes env st cfg then ["✨ Trip planning complete!"] else [])
  /\ errors_shown (trace (guarded_run env i cs st cfg))
     = (if forallb names_a_node (fst (stream env st cfg)) then
          match snd (stream env st cfg), fst (stream env st cfg) with
          | Some e, _ => [error_message e]
          | None, [] => [error_message UnboundLocalError_node_state]
          | None, _ :: _ => []
          end
        else [error_message StopIteration])
  /\ itinerary_shown (trace (guarded_run env i cs st cfg))
     = (if stream_completes env st cfg then
          match last_node (fst (stream env st cfg)) with
          | Some (_, final_state) =>
              if Py.truthy_str (ns_final_itinerary final_state)
              then [default "" (ns_final_itinerary final_state)]
              else []
          | None => []
          end
        else []).
Proof.
  unfold guarded_run, stream_completes.
  rewrite trace_try_except, run_workflow_eq. cbn [trace result fst snd].
  change (Do (stream_call st cfg) :: ?t) with ([Do (stream_call st cfg)] ++ t).
  rewrite !status_lines_app, !errors_shown_app, !itinerary_shown_app.
  destruct (stream_loop_shows cs 5 (fst (stream env st cfg)) (mkLoopVars 0 None))
    as [-> [-> ->]].
  rewrite stream_loop_result.
  destruct (forallb names_a_node (fst (stream env st cfg))) eqn:Hnamed; cbn [andb];
    [| split; [| split]; cbn; now rewrite ?app_nil_r].
  destruct (snd (stream env st cfg)) as [e |];
    [split; [| split]; cbn; now rewrite ?app_nil_r |].
  rewrite node_vars_after. cbn [node].
  destruct (fst (stream env st cfg)) as [| step rest] eqn:Hsteps.
  - split; [| split]; reflexivity.
  - destruct (last_node_named (step :: rest) Hnamed) as [[name final_state] Hlast];
      [discriminate |].
    rewrite Hlast.
    change (Do (progress 1) :: Do (status_text ?s) :: ?t)
      with ([Do (progress 1); Do (status_text s)] ++ t).
    rewrite !status_lines_app, !errors_shown_app, !itinerary_shown_app.
    destruct (show_itinerary_shows env i final_state) as [-> [-> ->]].
    split; [| split]; cbn; now rewrite ?app_nil_r.
Qed.

Lemma destination_columns_shows (items : list (string * DestInfo)) (i : nat) :
  status_lines (trace (destination_columns items i)) = []
  /\ itinerary_shown (trace (destination_columns items i)) = [].
Proof.
  revert i. induction items as [| [dest info_] rest IH]; intros i; [now split |].
  cbn [destination_columns]. rewrite trace_bind, trace_within, result_within.
  rewrite status_lines_app, itinerary_shown_app.
  unfold getitem.
  destruct (highlights info_ !! 0%nat); [| now split].
  destruct (highlights info_ !! 1%nat); [| now split].
  destruct (highlights info_ !! 2%nat); [| now split].
  cbn -[destination_columns]. apply IH.
Qed.

Lemma welcome_shows (env : Env) :
  status_lines (trace (welcome env)) = [] /\ itinerary_shown (trace (welcome env)) = [].
Proof.
  unfold welcome. rewrite !trace_bind. cbn [emit trace result fst snd].
  rewrite !status_lines_app, !itinerary_shown_app.
  destruct (destination_columns_shows (take 3 (DESTINATIONS env)) 0) as [-> ->].
  now split.
Qed.

(** The status lines, the errors and the itinerary of a whole run of
    [main]. *)
Lemma main_shows (env : Env) :
  let i := inputs_of env in
  let guarded :=
    trace (guarded_run env i (containers_of agent_steps 0 ∅)
             (make_initial_state env i (uuid4 env)) (make_config (uuid4 env))) in
  status_lines (trace (main env))
  = (if reaches_stream env i then status_lines guarded else [])
  /\ errors_shown (trace (main env))
     = (if in_plan_button i then
          if in_return_date i <=? in_departure_date i
          then ["Return date must be after departure date!"]
          else if reaches_stream env i then errors_shown guarded else []
        else [])
  /\ itinerary_shown (trace (main env))
     = (if reaches_stream env i then itinerary_shown guarded else []).
Proof.
  intros i guarded. subst i guarded.
  rewrite (main_unfold env (inputs_of env) (sidebar_result env)). cbn [trace fst].
  unfold reaches_stream.
  rewrite !status_lines_app, !errors_shown_app, !itinerary_shown_app.
  change (status_lines (map (Within Sidebar) (trace (sidebar env)))) with (@nil string).
  change (errors_shown (map (Within Sidebar) (trace (sidebar env)))) with (@nil string).
  change (itinerary_shown (map (Within Sidebar) (trace (sidebar env)))) with (@nil string).
  cbn [app status_lines errors_shown itinerary_shown omap list_omap call_of].
  destruct (in_plan_button (inputs_of env)); cbn [andb].
  - destruct (in_return_date (inputs_of env) <=? in_departure_date (inputs_of env));
      cbn [negb andb]; [now repeat split |].
    rewrite plan_trip_eq, trip_summary_eq, setup_monitoring_eq, start_workflow_eq.
    cbn [trace fst].
    rewrite !status_lines_app, !errors_shown_app, !itinerary_shown_app.
    destruct (configure_azure_monitor env _), (configure_otlp_tracing env),
             (session_has_workflow_steps env), (build_workflow env), (compile env);
      try (now repeat split).
    all: rewrite stream_with_updates_eq; cbn [trace fst];
      rewrite !app_comm_cons, !status_lines_app, !errors_shown_app, !itinerary_shown_app;
      now repeat split.
  - destruct (welcome_shows env) as [-> ->].
    destruct (text_only_is_display_only _ (welcome_text_only env)) as [_ ->].
    now repeat split.
Qed.

(** X11: the error messages of a run of [main].  Before the button is
    pressed there is none.  A request whose dates fail the check gets the
    date message.  A request that passes it gets at most one message: none
    when the workflow fails to build or compile (that exception leaves
    [main]) or when the stream comes to its end after at least one step;
    the text of the stream's exception when the stream raises; the text of
    the unbound variable when the stream ends without a step; and an empty
    text when a step is an empty dict, whatever comes after that step. *)
Theorem X11_the_error_shown (env : Env) :
  let i := inputs_of env in
  let run := stream env (make_initial_state env i (uuid4 env)) (make_config (uuid4 env)) in
  errors_shown (trace (main env))
  = (if in_plan_button i then
       if in_return_date i <=? in_departure_date i
       then ["Return date must be after departure date!"]
       else if reaches_stream env i then
              if forallb names_a_node (fst run) then
                match snd run, fst run with
                | Some e, _ =>
                    ["An error occurred while planning your trip: " +:+ Py.exc_str e]
                | None, [] =>
                    ["An error occurred while planning your trip: "
                     +:+ "cannot access local variable 'node_state' where it is not "
                     +:+ "associated with a value"]
                | None, _ :: _ => []
                end
              else ["An error occurred while planning your trip: "]
            else []
     else [])
  /\ (length (errors_shown (trace (main env))) <= 1)%nat.
Proof.
  intros i run. subst i run.
  destruct (main_shows env) as [_ [Herrors _]]. rewrite Herrors.
  destruct (guarded_run_shows env (inputs_of env) (containers_of agent_steps 0 ∅)
              (make_initial_state env (inputs_of env) (uuid4 env))
              (make_config (uuid4 env))) as [_ [-> _]].
  split; [reflexivity |].
  destruct (in_plan_button (inputs_of env)); [| cbn; lia].
  destruct (_ <=? _); [cbn; lia |].
  destruct (reaches_stream env (inputs_of env)); [| cbn; lia].
  destruct (forallb names_a_node _); [| cbn; lia].
  destruct (snd _); [cbn; lia |].
  destruct (fst _); cbn; lia.
Qed.

(** X12: the status line of a run that reaches the stream shows, for each
    step handled and in their order, that the node of the step is working,
    under its display name, and at last that the planning is complete
    exactly when the stream comes to its end; a run that does not reach the
    stream shows no status. *)
Theorem X12_the_status_lines (env : Env) :
  let i := inputs_of env in
  let st := make_initial_state env i (uuid4 env) in
  let cfg := make_config (uuid4 env) in
  status_lines (trace (main env))
  = if reaches_stream env i
    then map (fun name => "🔄 " +:+ format_agent_name name +:+ " is working...")
           (step_names (handled (fst (stream env st cfg))))
         ++ (if stream_completes env st cfg then ["✨ Trip planning complete!"] else [])
    else [].
Proof.
  intros i st cfg. subst i st cfg.
  destruct (main_shows env) as [-> _].
  now destruct (guarded_run_shows env (inputs_of env) (containers_of agent_steps 0 ∅)
                  (make_initial_state env (inputs_of env) (uuid4 env))
                  (make_config (uuid4 env))) as [-> _].
Qed.

(** X13: the itinerary in the expander is that of the last step of the
    stream alone, read from the first node of that step: it is shown when the
    stream comes to its end and that node holds an itinerary that is not
    empty.  The itinerary of an earlier step is not shown, and none is shown
    when the stream raises or yields an empty dict. *)
Theorem X13_the_itinerary_is_that_of_the_last_step (env : Env) :
  let i := inputs_of env in
  let st := make_initial_state env i (uuid4 env) in
  let cfg := make_config (uuid4 env) in
  itinerary_shown (trace (main env))
  = if reaches_stream env i && stream_completes env st cfg then
      match last_node (fst (stream env st cfg)) with
      | Some (_, final_state) =>
          if Py.truthy_str (ns_final_itinerary final_state)
          then [default "" (ns_final_itinerary final_state)]
          else []
      | None => []
      end
    else [].
Proof.
  intros i st cfg. subst i st cfg.
  destruct (main_shows env) as [_ [_ ->]].
  destruct (guarded_run_shows env (inputs_of env) (containers_of agent_steps 0 ∅)
              (make_initial_state env (inputs_of env) (uuid4 env))
              (make_config (uuid4 env))) as [_ [_ ->]].
  now destruct (reaches_stream env (inputs_of env)).
Qed.

(** A stream whose synthesizer step is followed by one more step: the
    itinerary of the synthesizer is not shown. *)
Lemma itinerary_of_an_earlier_step_is_not_shown :
  let plan := mkNodeState (Some [BaseMessage "ai" "done"]) None None None (Some "Day 1") in
  let after := mkNodeState (Some [BaseMessage "ai" "bye"]) None None None None in
  let env := sample_env true 739021 739026 2
               [[("plan_synthesizer", plan)]; [("coordinator", after)]] None in
  itinerary_shown (trace (main env)) = []
  /\ downloads (trace (main env)) = []
  /\ errors_shown (trace (main env)) = []
  /\ result (main env) = Returns tt.
Proof. cbv zeta. repeat split; vm_compute; reflexivity. Qed.

(** X14: with the five agents the bar grows with each of the first five
    steps and is full from the fifth step on: below five steps the value is
    less than 1 and less than the next one, from five on it is 1. *)
Theorem X14_the_bar_is_full_from_the_fifth_step (k : Z) :
  if k <? Z.of_nat (length agent_steps)
  then (progress_value k 5 < progress_value (k + 1) 5)%Q /\ (progress_value k 5 < 1)%Q
  else (progress_value k 5 == 1)%Q.
Proof.
  change (Z.of_nat (length agent_steps)) with 5.
  destruct (Z.ltb_spec k 5) as [Hlt | Hge].
  - rewrite !progress_value_closed. unfold Qlt. cbn. lia.
  - now apply progress_value_full.
Qed.

(* ===================================================================== *)
(** * The rows of the agents, in general *)
(* ===================================================================== *)

Lemma containers_of_notin (agents : list string) (k : nat) (m : gmap string nat)
    (name : string) :
  ~ In name agents -> containers_of agents k m !! name = m !! name.
Proof.
  revert k m. induction agents as [| agent rest IH]; intros k m Hnotin; [reflexivity |].
  cbn [containers_of]. rewrite IH by (intros H; apply Hnotin; now right).
  apply lookup_insert_ne. intros ->. apply Hnotin. now left.
Qed.

Lemma containers_of_nodup (agents : list string) (k : nat) (m : gmap string nat)
    (j : nat) (name : string) :
  NoDup agents -> agents !! j = Some name ->
  containers_of agents k m !! name = Some (k + j)%nat.
Proof.
  intros Hnodup. revert k m j.
  induction Hnodup as [| agent rest Hnotin Hnodup IH]; intros k m j Hj; [discriminate Hj |].
  cbn [containers_of]. destruct j as [| j].
  - injection Hj as ->. rewrite containers_of_notin.
    + rewrite lookup_insert_eq. f_equal. lia.
    + now rewrite <- list_elem_of_In.
  - cbn in Hj. rewrite (IH (S k) _ j Hj). f_equal. lia.
Qed.

(** X15: for a list of agents without a repeated name, [make_containers]
    returns a map in which each agent has the placeholder made at its
    position (counted from the start index) and any other name has none; it
    shows three events per agent. *)
Theorem X15_each_agent_gets_the_row_of_its_position (agents : list string) (k : nat) :
  NoDup agents ->
  exists m : gmap string nat,
    result (make_containers agents k ∅) = Returns m
    /\ (forall j name, agents !! j = Some name -> m !! name = Some (k + j)%nat)
    /\ (forall name, ~ In name agents -> m !! name = None)
    /\ length (trace (make_containers agents k ∅)) = (3 * length agents)%nat.
Proof.
  intros Hnodup. exists (containers_of agents k ∅).
  rewrite make_containers_eq. cbn [trace result fst snd].
  split; [reflexivity |]. split; [| split].
  - intros j name Hj. now apply containers_of_nodup.
  - intros name Hnotin. now rewrite containers_of_notin.
  - clear Hnodup. revert k. induction agents as [| agent rest IH]; intros k; [reflexivity |].
    cbn [rows_of length app]. rewrite IH. lia.
Qed.

Lemma X15_each_agent_gets_the_row_of_its_position_witness :
  NoDup ["planner"; "critic"]
  /\ exists m : gmap string nat,
       result (make_containers ["planner"; "critic"] 3 ∅) = Returns m
       /\ m !! "critic" = Some 4%nat
       /\ m !! "coordinator" = None.
Proof.
  assert (H : NoDup ["planner"; "critic"]).
  { repeat (apply NoDup_cons; split; [rewrite list_elem_of_In; cbn; intuition discriminate |]).
    apply NoDup_nil_2. }
  split; [exact H |].
  destruct (X15_each_agent_gets_the_row_of_its_position ["planner"; "critic"] 3 H)
    as [m [Hm [Hin [Hout _]]]].
  exists m. split; [exact Hm |]. split.
  - exact (Hin 1%nat "critic" eq_refl).
  - apply Hout. cbn. intuition discriminate.
Defined.

(* ===================================================================== *)
(** * Steps with several nodes, and nodes without a row *)
(* ===================================================================== *)

Lemma loop_body_first_item (cs : gmap string nat) (total : Z) (step : Step)
    (vars : LoopVars) :
  loop_body cs total (take 1 step) vars = loop_body cs total step vars.
Proof. destruct step as [| [name node_state] more]; reflexivity. Qed.

Lemma stream_loop_first_items (cs : gmap string nat) (total : Z) (steps : list Step)
    (vars : LoopVars) :
  stream_loop cs total (map (take 1) steps) vars = stream_loop cs total steps vars.
Proof.
  revert vars. induction steps as [| step rest IH]; intros vars; [reflexivity |].
  cbn [map stream_loop]. rewrite loop_body_first_item.
  destruct (loop_body cs total step vars) as [t [vars' | e]]; [| reflexivity].
  cbn. now rewrite IH.
Qed.

Lemma run_workflow_first_items (env : Env) (i : Inputs) (cs : gmap string nat)
    (st : PlannerState) (cfg : Config) :
  run_workflow (first_items_only env) i cs st cfg = run_workflow env i cs st cfg.
Proof.
  unfold run_workflow, first_items_only. cbn [stream with_stream fst snd].
  now rewrite stream_loop_first_items.
Qed.

(** X16: of a step that reports several nodes, [main] reads the first one
    only: a run is the same, call for call and in its outcome, when every
    step of the stream is cut down to its first item. *)
Theorem X16_only_the_first_node_of_a_step_is_read (env : Env) :
  main (first_items_only env) = main env.
Proof.
  rewrite (M_eta (main (first_items_only env))), (M_eta (main env)).
  rewrite (main_unfold (first_items_only env) (inputs_of env) (sidebar_result env)).
  rewrite (main_unfold env (inputs_of env) (sidebar_result env)).
  cbn [trace result fst snd].
  change (trace (sidebar (first_items_only env))) with (trace (sidebar env)).
  change (welcome (first_items_only env)) with (welcome env).
  destruct (in_plan_button (inputs_of env)); [| reflexivity].
  destruct (in_return_date (inputs_of env) <=? in_departure_date (inputs_of env));
    [reflexivity |].
  assert (Hplan : plan_trip (first_items_only env) (inputs_of env)
                  = plan_trip env (inputs_of env)).
  { rewrite !plan_trip_eq, !start_workflow_eq, !setup_monitoring_eq.
    cbn [first_items_only with_stream build_workflow compile session_has_workflow_steps
         configure_azure_monitor configure_otlp_tracing getenv uuid4 trace fst].
    destruct (build_workflow env); [reflexivity |].
    destruct (compile env); [reflexivity |].
    rewrite !stream_with_updates_eq. cbn [trace fst].
    unfold guarded_run.
    change (with_stream env _) with (first_items_only env).
    now rewrite run_workflow_first_items. }
  now rewrite Hplan.
Qed.

(** X17: a step of a node that is not one of [agent_steps] is counted like
    any other: it moves the bar, sets the status line and becomes the state
    the loop holds; but it has no row, and no preview of its message is
    shown. *)
Theorem X17_a_node_without_a_row_is_counted_but_not_previewed
    (name : string) (node_state : NodeState) (more : Step) (vars : LoopVars) :
  ~ In name agent_steps ->
  loop_body (containers_of agent_steps 0 ∅) (Z.of_nat (length agent_steps))
    ((name, node_state) :: more) vars
  = ([Do (progress (progress_value (step_count vars + 1) 5));
      Do (status_text ("🔄 " +:+ format_agent_name name +:+ " is working..."))],
     Returns (mkLoopVars (step_count vars + 1) (Some (name, node_state)))).
Proof.
  intros Hnotin. rewrite loop_body_eq.
  rewrite show_latest_message_nothing; [reflexivity |].
  right. right. now apply containers_of_notin.
Qed.

Lemma X17_a_node_without_a_row_is_counted_but_not_previewed_witness :
  let node_state := mkNodeState (Some [BaseMessage "ai" "hello"]) None None None None in
  ~ In "__start__" agent_steps
  /\ loop_body (containers_of agent_steps 0 ∅) 5 [("__start__", node_state)]
       (mkLoopVars 0 None)
     = ([Do (progress (progress_value 1 5));
         Do (status_text "🔄   Start   is working...")],
        Returns (mkLoopVars 1 (Some ("__start__", node_state)))).
Proof.
  intros node_state.
  assert (H : ~ In "__start__" agent_steps) by (cbn; intuition discriminate).
  split; [exact H |].
  exact (X17_a_node_without_a_row_is_counted_but_not_previewed
           "__start__" node_state [] (mkLoopVars 0 None) H).
Defined.

(* ===================================================================== *)
(** * When monitoring is set up *)
(* ===================================================================== *)

Lemma monitoring_calls_app (t1 t2 : list Event) :
  monitoring_calls (t1 ++ t2) = monitoring_calls t1 ++ monitoring_calls t2.
Proof. unfold monitoring_calls. now rewrite map_app, List.filter_app. Qed.

Lemma display_only_no_monitoring (t : list Event) :
  Forall display_only t -> monitoring_calls t = [].
Proof.
  induction 1 as [| e rest He _ IH]; [reflexivity |].
  unfold monitoring_calls, display_only in *. cbn [map List.filter].
  destruct (call_of e); try discriminate He; exact IH.
Qed.

(** X18: monitoring is set up once for every request that passes the date
    check, before the workflow is built and whether or not it can be built;
    it is not set up before the button is pressed or for a request that is
    turned down.  The tracing is configured only after Azure Monitor was
    configured without an exception, and at most one warning is shown. *)
Theorem X18_monitoring_is_set_up_for_every_accepted_request (env : Env) :
  let connection_string := getenv env "APPLICATION_INSIGHTS_CONNECTION_STRING" in
  monitoring_calls (trace (main env))
  = if in_plan_button (inputs_of env)
       && negb (in_return_date (inputs_of env) <=? in_departure_date (inputs_of env))
    then configure_azure_monitor_call connection_string
         :: match configure_azure_monitor env connection_string,
                  configure_otlp_tracing env with
            | Some e, _ => [warning ("Monitoring setup failed: " +:+ Py.exc_str e)]
            | None, Some e =>
                [configure_otlp_tracing_call;
                 warning ("Monitoring setup failed: " +:+ Py.exc_str e)]
            | None, None => [configure_otlp_tracing_call]
            end
    else [].
Proof.
  intros connection_string. subst connection_string.
  rewrite (main_unfold env (inputs_of env) (sidebar_result env)). cbn [trace fst].
  rewrite !monitoring_calls_app.
  change (monitoring_calls (map (Within Sidebar) (trace (sidebar env)))) with (@nil Call).
  cbn [app monitoring_calls map List.filter call_of is_monitoring_call].
  destruct (in_plan_button (inputs_of env)); cbn [andb].
  - destruct (in_return_date (inputs_of env) <=? in_departure_date (inputs_of env));
      cbn [negb]; [reflexivity |].
    rewrite plan_trip_eq, trip_summary_eq, setup_monitoring_eq, start_workflow_eq.
    cbn [trace fst]. rewrite !monitoring_calls_app.
    destruct (configure_azure_monitor env _), (configure_otlp_tracing env),
             (session_has_workflow_steps env), (build_workflow env), (compile env);
      try reflexivity.
    all: rewrite stream_with_updates_eq; cbn [trace fst];
      destruct (guarded_run_display env (inputs_of env) (containers_of agent_steps 0 ∅)
                  (make_initial_state env (inputs_of env) (uuid4 env))
                  (make_config (uuid4 env))) as [t [-> Hdisplay]];
      rewrite !app_comm_cons, !monitoring_calls_app;
      change (Do (stream_call ?a ?b) :: t) with ([Do (stream_call a b)] ++ t);
      rewrite !monitoring_calls_app, (display_only_no_monitoring t Hdisplay); reflexivity.
  - apply display_only_no_monitoring.
    now destruct (text_only_is_display_only _ (welcome_text_only env)).
Qed.

(* ===================================================================== *)
(** * Further edges of the preview and of the city lists *)
(* ===================================================================== *)

(** X19: the preview is longer than the message itself exactly for messages
    of 301 or 302 characters: they lose one or two characters and gain three
    dots. *)
Theorem X19_preview_longer_than_the_message (content : string) :
  (String.length content <? String.length (preview content))%nat
  = ((300 <? String.length content) && (String.length content <? 303))%nat.
Proof.
  unfold preview.
  destruct (Nat.ltb_spec 300 (String.length content)) as [Hlong | Hshort].
  - rewrite length_append, length_slice_to. cbn [String.length andb].
    rewrite Nat.min_l by lia.
    destruct (Nat.ltb_spec (String.length content) (300 + 3)),
             (Nat.ltb_spec (String.length content) 303); try reflexivity; lia.
  - cbn [andb]. apply Nat.ltb_irrefl.
Qed.

(** X20: when a select box hands back one of the options it is given, the
    origin of a request is one of the seven origin cities and its destination
    is a key of [DESTINATIONS] in title case or one of the four extra
    cities. *)
Theorem X20_origin_and_destination_are_offered_cities (env : Env) :
  (forall label options index,
      options <> [] -> In (selectbox env label options index) options) ->
  In (in_origin (inputs_of env))
     ["Seattle"; "New York"; "San Francisco"; "London"; "Los Angeles"; "Chicago"; "Boston"]
  /\ (In (in_destination (inputs_of env))
         (map (fun item => Py.title (fst item)) (DESTINATIONS env))
      \/ In (in_destination (inputs_of env)) ["Barcelona"; "Amsterdam"; "Vienna"; "Prague"]).
Proof.
  intros Hwidget. split.
  - apply (Hwidget "🛫 Origin City"). discriminate.
  - apply in_app_or. rewrite <- map_map.
    change (map Py.title (map fst (DESTINATIONS env))
            ++ ["Barcelona"; "Amsterdam"; "Vienna"; "Prague"])
      with (map Py.title (map fst (DESTINATIONS env))
            ++ map Py.title ["Barcelona"; "Amsterdam"; "Vienna"; "Prague"]).
    rewrite <- map_app.
    apply (Hwidget "🏖️ Destination City").
    destruct (DESTINATIONS env); discriminate.
Qed.

Lemma X20_origin_and_destination_are_offered_cities_witness :
  let env :=
    mkEnv 739000 (fun _ => "") (fun _ => "")
      [("kyoto", mkDestInfo "Japan" ["Gion"; "Fushimi Inari"; "Arashiyama"])]
      (fun _ options _ => hd "" options) (fun _ value _ _ => value)
      (fun _ _ _ value => value) (fun _ value => value) (fun _ => true)
      (fun _ => None) (fun _ => None) None false "" None None (fun _ _ => ([], None)) in
  (forall label options index,
      options <> [] -> In (selectbox env label options index) options)
  /\ in_origin (inputs_of env) = "Seattle"
  /\ in_destination (inputs_of env) = "Kyoto"
  /\ In (in_origin (inputs_of env))
        ["Seattle"; "New York"; "San Francisco"; "London"; "Los Angeles"; "Chicago";
         "Boston"].
Proof.
  intros env.
  assert (Hwidget : forall label options index,
             options <> [] -> In (selectbox env label options index) options).
  { intros label [| option rest] index Hne; [now contradict Hne | now left]. }
  split; [exact Hwidget |]. split; [reflexivity |]. split; [reflexivity |].
  exact (proj1 (X20_origin_and_destination_are_offered_cities env Hwidget)).
Defined.

(* ===================================================================== *)
(** * A run of [main] over the five stages *)
(* ===================================================================== *)

(** C2: in every run of [main] on the workflow of the orchestrator, for a
    request that passes the date check and whatever the agents do: the
    orchestrator yields one StepEvent per stage, in the order of
    [agent_steps], with the counters 1 to 5, and the stream hands them to
    [main] and ends.  [main] calls the stream once and runs its loop over
    these steps from the count 0: after the first k steps the loop holds the
    count k, the counter of the k-th StepEvent, with its stage and state.
    What [main] shows says the same: one status line per stage, in order,
    and for the k-th step the progress of the count k, that is 1/5, 2/5,
    3/5, 4/5 and 1. *)
Theorem C2_one_step_event_per_stage_counted_from_1
    (execute : Orchestrator.Agents) (env0 : Env) :
  let env := with_orchestrator env0 execute in
  let i := inputs_of env in
  let initial_state := make_initial_state env i (uuid4 env) in
  let config := make_config (uuid4 env) in
  let cs := containers_of agent_steps 0 ∅ in
  let events :=
    fst (Orchestrator.run execute initial_state Orchestrator.stage_list
           (Z.to_nat (recursion_limit config))) in
  let steps := map Orchestrator.step_of_event events in
  in_plan_button i = true ->
  in_departure_date i < in_return_date i ->
  map Orchestrator.ev_stage events = agent_steps
  /\ map Orchestrator.ev_counter events = [1; 2; 3; 4; 5]%nat
  /\ stream env initial_state config = (steps, None)
  /\ stream_calls (trace (main env)) = [(initial_state, config)]
  /\ (exists rest,
        trace (run_workflow env i cs initial_state config)
        = Do (stream_call initial_state config)
          :: trace (stream_loop cs 5 steps (mkLoopVars 0 None)) ++ rest)
  /\ map (fun k => result (stream_loop cs 5 (take k steps) (mkLoopVars 0 None)))
         [1; 2; 3; 4; 5]%nat
     = map (fun ev =>
              Returns (mkLoopVars (Z.of_nat (Orchestrator.ev_counter ev))
                         (Some (Orchestrator.ev_stage ev,
                                Orchestrator.node_state_of (Orchestrator.ev_state ev)))))
           events
  /\ status_lines (trace (main env))
     = map (fun ev => "🔄 " +:+ format_agent_name (Orchestrator.ev_stage ev)
                      +:+ " is working...") events
       ++ ["✨ Trip planning complete!"]
  /\ progress_values (trace (main env))
     = 0%Q :: map (fun ev => progress_value (Z.of_nat (Orchestrator.ev_counter ev)) 5)
                events
            ++ [1%Q]
  /\ map Qred (progress_values (trace (main env)))
     = [0; 1 # 5; 2 # 5; 3 # 5; 4 # 5; 1; 1]%Q
  /\ result (main env) = Returns tt.
Proof.
  intros env i initial_state config cs events steps Hbutton Hdates.
  destruct (run_from_complete execute Orchestrator.stage_list stage_list_NoDup
              initial_state (Z.to_nat (recursion_limit config)) 0)
    as [Hnames [Hcounters Hend]].
  { apply initial_slots_free. }
  { cbn. lia. }
  fold (Orchestrator.run execute initial_state Orchestrator.stage_list
          (Z.to_nat (recursion_limit config))) in Hnames, Hcounters, Hend.
  fold events in Hnames, Hcounters.
  assert (Hstream : stream env initial_state config = (steps, None)).
  { subst steps events. unfold env. cbn [stream with_orchestrator].
    unfold Orchestrator.stream_of.
    destruct (Orchestrator.run _ _ _ _) as [evs end_]. cbn in Hend |- *. now rewrite Hend. }
  assert (Hleb : (in_return_date i <=? in_departure_date i) = false).
  { apply Z.leb_gt. exact Hdates. }
  assert (Hreaches : reaches_stream env i = true).
  { unfold reaches_stream. now rewrite Hbutton, Hleb. }
  split; [exact Hnames |]. split; [exact Hcounters |]. split; [exact Hstream |].
  split.
  { destruct (main_rows_and_stream_calls env i (sidebar_result env)) as [_ ->].
    now rewrite Hreaches. }
  split.
  { rewrite run_workflow_eq, Hstream. cbn [trace fst snd]. eexists. reflexivity. }
  pose proof (main_shows env) as Hshows. cbv zeta in Hshows.
  destruct Hshows as [Hstatus _].
  pose proof (guarded_run_shows env i cs initial_state config) as [Hguarded _].
  pose proof (progress_values_main env) as Hprogress.
  pose proof (progress_values_guarded_run env i cs initial_state config) as Hvalues.
  fold i initial_state config cs in Hstatus, Hprogress.
  rewrite Hreaches in Hstatus, Hprogress.
  rewrite Hguarded in Hstatus. rewrite Hvalues in Hprogress.
  unfold stream_completes in Hstatus, Hprogress.
  rewrite Hstream in Hstatus, Hprogress. cbn [fst snd] in Hstatus, Hprogress.
  rewrite Hstatus, Hprogress. clear Hstatus Hprogress Hguarded Hvalues Hstream.
  subst steps.
  destruct events as [| e1 [| e2 [| e3 [| e4 [| e5 [| e6 rest]]]]]]; try discriminate Hcounters.
  cbn [map Orchestrator.ev_counter] in Hcounters.
  injection Hcounters as H1 H2 H3 H4 H5.
  split.
  { cbn [map take]. rewrite !stream_loop_result. cbn.
    now rewrite H1, H2, H3, H4, H5. }
  split; [reflexivity |].
  split.
  { cbn. now rewrite H1, H2, H3, H4, H5. }
  split.
  { vm_compute. reflexivity. }
  rewrite main_result. fold i. now rewrite Hbutton, Hleb.
Qed.

Lemma C2_one_step_event_per_stage_counted_from_1_witness :
  let env := with_orchestrator (sample_env true 739021 739026 2 [] None)
               failing_hotel_agents in
  in_plan_button (inputs_of env) = true
  /\ in_departure_date (inputs_of env) < in_return_date (inputs_of env)
  /\ status_lines (trace (main env))
     = ["🔄 Coordinator is working..."; "🔄 Flight Specialist is working...";
        "🔄 Hotel Specialist is working..."; "🔄 Activity Specialist is working...";
        "🔄 Plan Synthesizer is working..."; "✨ Trip planning complete!"]
  /\ map Qred (progress_values (trace (main env)))
     = [0; 1 # 5; 2 # 5; 3 # 5; 4 # 5; 1; 1]%Q.
Proof.
  intros env.
  assert (H1 : in_plan_button (inputs_of env) = true) by reflexivity.
  assert (H2 : in_departure_date (inputs_of env) < in_return_date (inputs_of env))
    by reflexivity.
  split; [exact H1 |]. split; [exact H2 |].
  pose proof (C2_one_step_event_per_stage_counted_from_1 failing_hotel_agents
                (sample_env true 739021 739026 2 [] None) H1 H2)
    as [_ [_ [_ [_ [_ [_ [_ [_ [Hvalues _]]]]]]]]].
  split; [vm_compute; reflexivity | exact Hvalues].
Defined.
